(** * tt.utils.assertions: validation of symbol collections and of
      symbol-to-value mappings against an expression's symbol set.

    The two Python functions of [tt/utils/assertions.py] are embedded as Rocq
    functions returning a [result]: [Ok] when the Python function returns
    normally, [Err e] when it raises [e].  An exception is modelled by its
    class and the message it is built with. *)

From Stdlib Require Import Ascii Floats.SpecFloat.
From stdpp Require Import gmap strings list pretty.

Local Open Scope string_scope.
Local Open Scope nat_scope.
#[local] Set Warnings "-clear-no-such-hyp".

(** In the statements below a message is written out character by
    character, with the library's [String.concat] and the double-quote
    character of code 34, next to the functions that build it in the
    code. *)
Local Abbreviation dq := ("034"%char).
Local Abbreviation in_quotes s := (String dq (s ++ String dq EmptyString)).
Local Abbreviation enumerated syms :=
  (String.concat ", " ((λ s : string, in_quotes s) <$> syms)).

(** ** Strings and formatting *)

(** The double-quote character as a one-character string. *)
Definition dquote : string := String (Ascii.ascii_of_nat 34) EmptyString.

(** [sep.join(l)] of Python. *)
Fixpoint join (sep : string) (l : list string) : string :=
  match l with
  | [] => EmptyString
  | [x] => x
  | x :: xs => x ++ sep ++ join sep xs
  end.

(** ['"{}"'.format(sym)] *)
Definition quoted (sym : string) : string := dquote ++ sym ++ dquote.

(** ** Python values that can be supplied for a symbol *)

(** A float is given by its IEEE 754 value and by the text that [str]
    prints for it; that text is a datum of the value, the development does
    not compute it. *)
Inductive value : Type :=
  | VBool (b : bool)
  | VInt (z : Z)
  | VFloat (f : spec_float) (repr : string)
  | VStr (s : string)
  | VNone.

#[global] Instance spec_float_eq_dec : EqDecision spec_float.
Proof. solve_decision. Defined.

#[global] Instance value_eq_dec : EqDecision value.
Proof. solve_decision. Defined.

(** [bool] is a subclass of [int] in Python: [True == 1] and [False == 0]. *)
Definition int_of_bool (b : bool) : Z := if b then 1%Z else 0%Z.

(** A float is equal to an integer when its value is that integer: the
    comparison is exact; an infinity or a NaN is equal to no integer, and
    both zeros are equal to 0.  The finite float of sign [s], mantissa [m]
    and exponent [e] has the value (-1)^s * m * 2^e. *)
Definition float_eq_Z (f : spec_float) (z : Z) : bool :=
  match f with
  | S754_zero _ => bool_decide (z = 0%Z)
  | S754_finite s m e =>
      let n := if s then Z.neg m else Z.pos m in
      if (0 <=? e)%Z
      then bool_decide (z = n * 2 ^ e)%Z
      else bool_decide (z * 2 ^ (- e) = n)%Z
  | S754_infinity _ | S754_nan => false
  end.

(** Python's [==] on these values: numbers of the three numeric types are
    compared by value, a string is equal to strings only, [None] to [None]
    only. *)
Definition py_eq (a b : value) : bool :=
  match a, b with
  | VBool x, VBool y => bool_decide (x = y)
  | VBool x, VInt z | VInt z, VBool x => bool_decide (int_of_bool x = z)
  | VInt x, VInt y => bool_decide (x = y)
  | VFloat f _, VBool x | VBool x, VFloat f _ => float_eq_Z f (int_of_bool x)
  | VFloat f _, VInt z | VInt z, VFloat f _ => float_eq_Z f z
  | VFloat f _, VFloat g _ => SFeqb f g
  | VStr s, VStr t => bool_decide (s = t)
  | VNone, VNone => true
  | _, _ => false
  end.

(** [x in s] for a set [s] of values, given by its elements: some element
    is equal to [x] (equal values have equal hashes). *)
Definition py_in (x : value) (s : list value) : bool :=
  existsb (py_eq x) s.

(** [str(v)], which is what ["{}".format(v)] inserts. *)
Definition py_str (v : value) : string :=
  match v with
  | VBool true => "True"
  | VBool false => "False"
  | VInt z => pretty z
  | VFloat _ repr => repr
  | VStr s => s
  | VNone => "None"
  end.

(** Modelled from the spec: the constant [BOOLEAN_VALUES] of
    [tt/definitions], imported by the module but not part of the sources at
    hand; the accepted representations are 1, 0, True and False. *)
Definition BOOLEAN_VALUES : list value :=
  [VInt 1; VInt 0; VBool true; VBool false].

(** ** Outcomes *)

(** The exception classes imported from [tt.errors], with their message. *)
Inductive error : Type :=
  | DuplicateSymbolError (msg : string)
  | ExtraSymbolError (msg : string)
  | InvalidBooleanValueError (msg : string)
  | MissingSymbolError (msg : string).

Inductive result : Type :=
  | Ok
  | Err (e : error).

#[global] Instance error_eq_dec : EqDecision error.
Proof. solve_decision. Defined.

#[global] Instance result_eq_dec : EqDecision result.
Proof. solve_decision. Defined.

(** ** The two assertions *)

Definition missing_msg (syms : list string) : string :=
  "Did not receive value for the following symbols: "
    ++ join ", " (quoted <$> syms).

Definition extra_msg (syms : list string) : string :=
  "Received unexpected symbols: " ++ join ", " (quoted <$> syms).

Definition not_a_symbol_msg (k : string) : string :=
  dquote ++ k ++ dquote ++ " is not a symbol in this expression".

Definition invalid_value_msg (v : value) (k : string) : string :=
  dquote ++ py_str v ++ dquote ++ " passed as value for " ++ dquote ++ k
    ++ dquote ++ " is not a valid Boolean value".

Section Assertions.

(** The order in which Python iterates over a set is not specified; it is
    a parameter of the development, and stands for the order of iteration
    during one call: a call iterates over one set only, the one it puts in
    its message.  A statement about two calls takes two such parameters,
    since sets with the same elements can be iterated in different orders.
    Where a property depends on it, it is assumed that each element of the
    set is produced once. *)
Variable set_iter : gset string → list string.

(** A set is truthy when its length is not zero. *)
Definition truthy (X : gset string) : bool :=
  negb (bool_decide (size X = 0)).

Definition assert_iterable_contains_all_expr_symbols
    (iter_of_strs : list string) (reference_set : gset string) : result :=
  let passed_symbol_list := iter_of_strs in
  let passed_symbol_set : gset string := list_to_set passed_symbol_list in
  if negb (bool_decide (length passed_symbol_list = size passed_symbol_set))
  then Err (DuplicateSymbolError "Received duplicate symbols")
  else
    let passed_excess_set := passed_symbol_set ∖ reference_set in
    let reference_excess_set := reference_set ∖ passed_symbol_set in
    if truthy reference_excess_set
    then Err (MissingSymbolError (missing_msg (set_iter reference_excess_set)))
    else if truthy passed_excess_set
    then Err (ExtraSymbolError (extra_msg (set_iter passed_excess_set)))
    else Ok.

(** The dict is given by its items in iteration order; the loop body
    either raises or goes on with the next item.  The keys of a dict are
    pairwise distinct; nothing proved below depends on it. *)
Fixpoint assert_all_valid_keys
    (symbol_input_dict : list (string * value)) (symbol_set : gset string)
    : result :=
  match symbol_input_dict with
  | [] => Ok
  | (k, v) :: items =>
      if negb (bool_decide (k ∈ symbol_set))
      then Err (ExtraSymbolError (not_a_symbol_msg k))
      else if negb (py_in v BOOLEAN_VALUES)
      then Err (InvalidBooleanValueError (invalid_value_msg v k))
      else assert_all_valid_keys items symbol_set
  end.

End Assertions.

(** ** The same code over a store of Python objects

    Arguments of a Python call are references to objects.  To speak about
    what a call does to the objects it is handed, the two functions are
    given a second time over an explicit store: every operation used by the
    source either reads an object or allocates a new one.  The store holds
    the lists, sets and dicts, the kinds of object an argument can refer
    to; the views, iterators, tuples, strings and exceptions that a call
    creates on its way are not represented in it. *)

Module Store.

Inductive obj : Type :=
  | OList (l : list string)
  | OSet (s : gset string)
  | ODict (d : list (string * value)).

(** An address is an index into the store. *)
Definition loc := nat.
Definition store := list obj.

(** [Fault] stands for the TypeError or AttributeError of an operation
    applied to an object of another type than the documented one. *)
Inductive outcome (A : Type) : Type :=
  | Return (a : A)
  | Raise (e : error)
  | Fault.
Arguments Return {A} a.
Arguments Raise {A} e.
Arguments Fault {A}.

Definition M (A : Type) : Type := store → store * outcome A.

Definition ret {A} (a : A) : M A := λ σ, (σ, Return a).

Definition bind {A B} (m : M A) (f : A → M B) : M B :=
  λ σ, match m σ with
       | (σ', Return a) => f a σ'
       | (σ', Raise e) => (σ', Raise e)
       | (σ', Fault) => (σ', Fault)
       end.

Definition raise {A} (e : error) : M A := λ σ, (σ, Raise e).
Definition fault {A} : M A := λ σ, (σ, Fault).

Notation "'let!' x ':=' m 'in' k" := (bind m (λ x, k))
  (at level 10, x name, m at level 100, k at level 200).

Definition alloc (o : obj) : M loc := λ σ, ((σ ++ [o])%list, Return (length σ)).

Definition read (l : loc) : M obj :=
  λ σ, match σ !! l with
       | Some o => (σ, Return o)
       | None => (σ, Fault)
       end.

Section Code.

Variable set_iter : gset string → list string.

(** What iterating over an object yields. *)
Definition iterate (x : loc) : M (list string) :=
  let! o := read x in
  match o with
  | OList l => ret l
  | OSet s => ret (set_iter s)
  | ODict d => ret (d.*1)
  end.

(** [list(x)] *)
Definition py_list (x : loc) : M loc :=
  let! l := iterate x in alloc (OList l).

(** [set(x)] *)
Definition py_set (x : loc) : M loc :=
  let! l := iterate x in alloc (OSet (list_to_set l)).

(** [len(x)] *)
Definition py_len (x : loc) : M nat :=
  let! o := read x in
  match o with
  | OList l => ret (length l)
  | OSet s => ret (size s)
  | ODict d => ret (length d)
  end.

(** [a - b], defined between sets. *)
Definition py_sub (a b : loc) : M loc :=
  let! x := read a in
  let! y := read b in
  match x, y with
  | OSet s, OSet t => alloc (OSet (s ∖ t))
  | _, _ => fault
  end.

(** Truth value of an object in a condition. *)
Definition py_bool (x : loc) : M bool :=
  let! n := py_len x in ret (negb (bool_decide (n = 0))).

(** [k in x] *)
Definition py_contains (k : string) (x : loc) : M bool :=
  let! o := read x in
  match o with
  | OList l => ret (bool_decide (k ∈ l))
  | OSet s => ret (bool_decide (k ∈ s))
  | ODict d => ret (bool_decide (k ∈ d.*1))
  end.

(** [x.items()] *)
Definition py_items (x : loc) : M (list (string * value)) :=
  let! o := read x in
  match o with
  | ODict d => ret d
  | _ => fault
  end.

Definition assert_iterable_contains_all_expr_symbols
    (iter_of_strs reference_set : loc) : M unit :=
  let! passed_symbol_list := py_list iter_of_strs in
  let! passed_symbol_set := py_set passed_symbol_list in
  let! n1 := py_len passed_symbol_list in
  let! n2 := py_len passed_symbol_set in
  if negb (bool_decide (n1 = n2))
  then raise (DuplicateSymbolError "Received duplicate symbols")
  else
    let! passed_excess_set := py_sub passed_symbol_set reference_set in
    let! reference_excess_set := py_sub reference_set passed_symbol_set in
    let! b1 := py_bool reference_excess_set in
    if b1 : bool
    then let! syms := iterate reference_excess_set in
         raise (MissingSymbolError (missing_msg syms))
    else
      let! b2 := py_bool passed_excess_set in
      if b2 : bool
      then let! syms := iterate passed_excess_set in
           raise (ExtraSymbolError (extra_msg syms))
      else ret tt.

(** The loop over the items. *)
Fixpoint check_items (items : list (string * value)) (symbol_set : loc)
    : M unit :=
  match items with
  | [] => ret tt
  | (k, v) :: rest =>
      let! b := py_contains k symbol_set in
      if negb b
      then raise (ExtraSymbolError (not_a_symbol_msg k))
      else if negb (py_in v BOOLEAN_VALUES)
      then raise (InvalidBooleanValueError (invalid_value_msg v k))
      else check_items rest symbol_set
  end.

Definition assert_all_valid_keys (symbol_input_dict symbol_set : loc)
    : M unit :=
  let! items := py_items symbol_input_dict in
  check_items items symbol_set.

End Code.

(** A computation that leaves every object of the store it starts from
    as it is: the final store is the initial one, possibly followed by
    newly allocated objects. *)
Definition preserves {A} (m : M A) : Prop :=
  ∀ σ, σ `prefix_of` (m σ).1.

(** The outcome of the store version that corresponds to a [result]. *)
Definition of_result (r : result) : outcome unit :=
  match r with
  | Ok => Return tt
  | Err e => Raise e
  end.

End Store.

(** To be a member of the domain 1, 0, True, False in Python's sense: to
    be equal, by [==], to one of the four.  The float 1.0 is a member, the
    string of the digit 1 is not. *)
Definition boolean_value (v : value) : Prop :=
  py_eq v (VInt 1) = true ∨ py_eq v (VInt 0) = true
  ∨ py_eq v (VBool true) = true ∨ py_eq v (VBool false) = true.

#[global] Instance boolean_value_dec (v : value) : Decision (boolean_value v).
Proof. unfold boolean_value. apply _. Defined.

(** A pair that passes both checks of the loop body of
    [assert_all_valid_keys]: its key is in the set and its value is a
    member of the domain. *)
Definition passes (R : gset string) (kv : string * value) : Prop :=
  kv.1 ∈ R ∧ boolean_value kv.2.

(** The text by which a message names a value: a string by its characters,
    an integer by its decimal numeral, a float by the text [str] prints
    for it, and [None], [True] and [False] by their names. *)
Inductive value_text : value → string → Prop :=
  | text_str (s : string) : value_text (VStr s) s
  | text_int (z : Z) : value_text (VInt z) (pretty z)
  | text_float (f : spec_float) (repr : string) :
      value_text (VFloat f repr) repr
  | text_none : value_text VNone "None"
  | text_true : value_text (VBool true) "True"
  | text_false : value_text (VBool false) "False".

(** Two outcomes of the assertion on symbol collections that differ at
    most in the order in which the message enumerates its symbols. *)
Definition same_up_to_order (r r' : result) : Prop :=
  match r, r' with
  | Ok, Ok => True
  | Err (DuplicateSymbolError m), Err (DuplicateSymbolError m') => m = m'
  | Err (MissingSymbolError m), Err (MissingSymbolError m') =>
      ∃ syms syms' : list string,
        syms ≡ₚ syms'
        ∧ m = "Did not receive value for the following symbols: "
                ++ enumerated syms
        ∧ m' = "Did not receive value for the following symbols: "
                 ++ enumerated syms'
  | Err (ExtraSymbolError m), Err (ExtraSymbolError m') =>
      ∃ syms syms' : list string,
        syms ≡ₚ syms'
        ∧ m = "Received unexpected symbols: " ++ enumerated syms
        ∧ m' = "Received unexpected symbols: " ++ enumerated syms'
  | _, _ => False
  end.

(** The floats 1.0, 0.5 and -0.0 as binary64 values. *)
Definition float_one : spec_float := S754_finite false 4503599627370496 (-52).
Definition float_half : spec_float := S754_finite false 4503599627370496 (-53).
Definition float_neg_zero : spec_float := S754_zero true.

(** Symbols used in the examples. *)
Definition sA : string := "A".
Definition sB : string := "B".
Definition sC : string := "C".

(** A store with a list at address 0 and a set at address 1. *)
Definition example_store : Store.store :=
  [Store.OList [sA; sB]; Store.OSet {[sA; sB; sC]}].

(** A store with a dict at address 0, a set at address 1 and a list at
    address 2. *)
Definition dict_store : Store.store :=
  [Store.ODict [(sA, VInt 1); (sB, VStr "x")]; Store.OSet {[sA; sB]};
   Store.OList [sA; sA]].

(** What iterating over an object yields, as a function of the object:
    a list yields its entries, a set its elements in iteration order, a
    dict its keys. *)
Definition contents (set_iter : gset string → list string) (o : Store.obj)
    : list string :=
  match o with
  | Store.OList l => l
  | Store.OSet s => set_iter s
  | Store.ODict d => d.*1
  end.

(** The symbols for which [k in x] holds, as a function of the object. *)
Definition members (o : Store.obj) : gset string :=
  match o with
  | Store.OList l => list_to_set l
  | Store.OSet s => s
  | Store.ODict d => list_to_set (d.*1)
  end.

Definition is_set (o : Store.obj) : bool :=
  match o with
  | Store.OSet _ => true
  | _ => false
  end.

(** * Properties *)

(** ** Membership in the accepted values *)

(** The test of the code, [v in BOOLEAN_VALUES], is membership in the
    domain in Python's sense. *)
Lemma py_in_BOOLEAN_VALUES (v : value) :
  py_in v BOOLEAN_VALUES = true ↔ boolean_value v.
Proof.
  unfold py_in, BOOLEAN_VALUES, boolean_value. cbn [existsb].
  rewrite !orb_true_iff. intuition discriminate.
Qed.

Lemma py_in_BOOLEAN_VALUES_false (v : value) :
  py_in v BOOLEAN_VALUES = false ↔ ¬ boolean_value v.
Proof.
  rewrite <- py_in_BOOLEAN_VALUES. destruct (py_in v BOOLEAN_VALUES); split;
    congruence.
Qed.

(** The domain has two elements: since [True == 1] and [False == 0], to be
    equal to one of the four is to be equal to [True] or to [False], and is
    to be equal to [1] or to [0]. *)
Lemma boolean_value_two_valued (v : value) :
  (boolean_value v
   ↔ py_eq v (VBool true) = true ∨ py_eq v (VBool false) = true)
  ∧ (boolean_value v ↔ py_eq v (VInt 1) = true ∨ py_eq v (VInt 0) = true).
Proof.
  unfold boolean_value. destruct v as [[|]|z|f r|s|]; cbn;
    rewrite ?bool_decide_eq_true; intuition (try discriminate; auto).
Qed.

(** Which values are members, by type: every bool; the integers 0 and 1;
    the floats whose value is 0 or 1; no string, and not [None]. *)
Lemma boolean_value_classified (v : value) :
  boolean_value v
  ↔ match v with
    | VBool _ => True
    | VInt z => z = 0%Z ∨ z = 1%Z
    | VFloat f _ => float_eq_Z f 0 = true ∨ float_eq_Z f 1 = true
    | VStr _ | VNone => False
    end.
Proof.
  unfold boolean_value. destruct v as [[|]|z|f r|s|]; cbn;
    rewrite ?bool_decide_eq_true; intuition (try discriminate; auto).
Qed.

(** ** Sizes of the sets built from a list *)

Lemma size_list_to_set_le (l : list string) :
  size (list_to_set l : gset string) ≤ length l.
Proof.
  induction l as [|x l IH]; cbn.
  - by rewrite size_empty.
  - rewrite size_union_alt, size_singleton.
    assert (size (list_to_set l ∖ {[x]} : gset string)
            ≤ size (list_to_set l : gset string)).
    { apply subseteq_size. set_solver. }
    lia.
Qed.

Lemma length_size_NoDup (l : list string) :
  length l = size (list_to_set l : gset string) ↔ NoDup l.
Proof.
  split; [|intros; symmetry; by apply size_list_to_set].
  induction l as [|x l IH]; cbn; intros Hlen; [constructor|].
  destruct (decide (x ∈ l)) as [Hin|Hnin].
  - assert (({[x]} ∪ list_to_set l : gset string) = list_to_set l) as Heq
      by set_solver.
    rewrite Heq in Hlen. pose proof (size_list_to_set_le l). lia.
  - rewrite size_union, size_singleton in Hlen by set_solver.
    constructor; [done|]. apply IH. lia.
Qed.

Lemma truthy_true (X : gset string) : truthy X = true ↔ X ≠ ∅.
Proof.
  unfold truthy. rewrite negb_true_iff, bool_decide_eq_false.
  rewrite size_non_empty_iff. by unfold_leibniz.
Qed.

Lemma truthy_false (X : gset string) : truthy X = false ↔ X = ∅.
Proof.
  unfold truthy. rewrite negb_false_iff, bool_decide_eq_true.
  rewrite size_empty_iff. by unfold_leibniz.
Qed.

Lemma difference_empty (X Y : gset string) : X ∖ Y = ∅ ↔ X ⊆ Y.
Proof.
  split; [|set_solver].
  intros Hd s Hs. destruct (decide (s ∈ Y)) as [|Hn]; [done|].
  assert (s ∈ X ∖ Y) as Hin by set_solver.
  rewrite Hd in Hin. set_solver.
Qed.

Lemma strict_subset_difference (X Y : gset string) : X ⊂ Y → Y ∖ X ≠ ∅.
Proof.
  intros [_ Hn] He. apply Hn. by apply difference_empty.
Qed.

(** ** The messages, character by character *)

Lemma join_concat (sep : string) (l : list string) :
  join sep l = String.concat sep l.
Proof.
  induction l as [|x [|y l] IH]; [done..|].
  change (x ++ sep ++ join sep (y :: l) = x ++ sep ++ String.concat sep (y :: l)).
  by rewrite IH.
Qed.

Lemma quoted_in_quotes (s : string) : quoted s = in_quotes s.
Proof. reflexivity. Qed.

Lemma missing_msg_enumerated (syms : list string) :
  missing_msg syms
  = "Did not receive value for the following symbols: " ++ enumerated syms.
Proof. unfold missing_msg. by rewrite join_concat. Qed.

Lemma extra_msg_enumerated (syms : list string) :
  extra_msg syms = "Received unexpected symbols: " ++ enumerated syms.
Proof. unfold extra_msg. by rewrite join_concat. Qed.

Lemma not_a_symbol_msg_text (k : string) :
  not_a_symbol_msg k
  = String dq (k ++ String dq " is not a symbol in this expression").
Proof. reflexivity. Qed.

Lemma value_text_py_str (v : value) : value_text v (py_str v).
Proof. destruct v as [[|]| | | |]; constructor. Qed.

Lemma value_text_inj (v : value) (t : string) :
  value_text v t → t = py_str v.
Proof. by destruct 1. Qed.

Lemma invalid_value_msg_text (v : value) (k text : string) :
  value_text v text →
  invalid_value_msg v k
  = String dq (text ++ String dq (" passed as value for "
      ++ String dq (k ++ String dq " is not a valid Boolean value"))).
Proof. intros ->%value_text_inj. reflexivity. Qed.

(** ** The symbol-set assertion *)

Section Reconciler.

Variable set_iter : gset string → list string.

(** The three branches of the function, by the conditions they test. *)
Lemma reconcile_duplicate (C : list string) (R : gset string) :
  ¬ NoDup C →
  assert_iterable_contains_all_expr_symbols set_iter C R
  = Err (DuplicateSymbolError "Received duplicate symbols").
Proof.
  intros Hdup. unfold assert_iterable_contains_all_expr_symbols.
  rewrite bool_decide_eq_false_2; [done|].
  by rewrite length_size_NoDup.
Qed.

Lemma reconcile_NoDup (C : list string) (R : gset string) :
  NoDup C →
  assert_iterable_contains_all_expr_symbols set_iter C R =
    if truthy (R ∖ list_to_set C)
    then Err (MissingSymbolError (missing_msg (set_iter (R ∖ list_to_set C))))
    else if truthy (list_to_set C ∖ R)
    then Err (ExtraSymbolError (extra_msg (set_iter (list_to_set C ∖ R))))
    else Ok.
Proof.
  intros Hnd. unfold assert_iterable_contains_all_expr_symbols.
  rewrite bool_decide_eq_true_2; [done|].
  by rewrite length_size_NoDup.
Qed.

(** C1: for a candidate without duplicates the assertion returns normally
    exactly when the set of the candidate's elements is the reference
    set. *)
Theorem reconcile_ok_iff (C : list string) (R : gset string) :
  NoDup C →
  assert_iterable_contains_all_expr_symbols set_iter C R = Ok
  ↔ list_to_set C = R.
Proof.
  intros Hnd. rewrite reconcile_NoDup by done. split.
  - destruct (truthy (R ∖ list_to_set C)) eqn:Hm; [discriminate|].
    destruct (truthy (list_to_set C ∖ R)) eqn:He; [discriminate|].
    intros _. apply truthy_false, difference_empty in Hm.
    apply truthy_false, difference_empty in He. set_solver.
  - intros <-.
    assert (truthy (list_to_set C ∖ list_to_set C) = false) as ->; [|done].
    apply truthy_false. set_solver.
Qed.

(** C3: a candidate in which some symbol occurs at two different positions
    makes the assertion raise DuplicateSymbolError, whatever the reference
    set is: the duplicate check comes before both mismatch checks. *)
Theorem reconcile_duplicate_first (C : list string) (i j : nat) (x : string) :
  i ≠ j → C !! i = Some x → C !! j = Some x →
  ∀ R : gset string,
    assert_iterable_contains_all_expr_symbols set_iter C R
  = Err (DuplicateSymbolError "Received duplicate symbols").
Proof.
  intros Hij Hi Hj R. apply reconcile_duplicate.
  rewrite NoDup_alt. intros Hnd. apply Hij. by eapply Hnd.
Qed.

(** C4: without duplicates, when the reference set has symbols the
    candidate lacks and the candidate has symbols the reference set lacks,
    the assertion raises MissingSymbolError, and so not ExtraSymbolError. *)
Theorem reconcile_missing_before_extra (C : list string) (R : gset string) :
  NoDup C →
  R ∖ list_to_set C ≠ ∅ →
  list_to_set C ∖ R ≠ ∅ →
  assert_iterable_contains_all_expr_symbols set_iter C R
    = Err (MissingSymbolError (missing_msg (set_iter (R ∖ list_to_set C))))
  ∧ ∀ msg,
      assert_iterable_contains_all_expr_symbols set_iter C R
      ≠ Err (ExtraSymbolError msg).
Proof.
  intros Hnd Hm _. rewrite reconcile_NoDup by done.
  apply truthy_true in Hm. rewrite Hm. by split.
Qed.

(** What the messages enumerate rests on the one fact known about the
    iteration order of a set. *)
Hypothesis set_iter_perm : ∀ X, set_iter X ≡ₚ elements X.

Lemma set_iter_NoDup (X : gset string) : NoDup (set_iter X).
Proof. rewrite set_iter_perm. apply NoDup_elements. Qed.

Lemma elem_of_set_iter (X : gset string) (s : string) :
  s ∈ set_iter X ↔ s ∈ X.
Proof. rewrite set_iter_perm. apply elem_of_elements. Qed.

(** C5: without duplicates, when the candidate's elements form a proper
    subset of the reference set, the assertion raises MissingSymbolError;
    its message is the fixed prefix followed by the names, each between two
    double-quote characters and joined by a comma and a space, of some
    enumeration without repetition of exactly the symbols of the reference
    set that the candidate lacks. *)
Theorem reconcile_missing (C : list string) (R : gset string) :
  NoDup C →
  list_to_set C ⊂ R →
  ∃ syms : list string,
    assert_iterable_contains_all_expr_symbols set_iter C R
      = Err (MissingSymbolError
               ("Did not receive value for the following symbols: "
                  ++ String.concat ", "
                       ((λ s, String dq (s ++ String dq EmptyString))
                          <$> syms)))
    ∧ NoDup syms
    ∧ ∀ s, s ∈ syms ↔ s ∈ R ∧ s ∉ C.
Proof.
  intros Hnd Hsub. exists (set_iter (R ∖ list_to_set C)).
  split; [|split].
  - rewrite reconcile_NoDup by done.
    assert (truthy (R ∖ list_to_set C) = true) as ->;
      [|by rewrite missing_msg_enumerated].
    by apply truthy_true, strict_subset_difference.
  - apply set_iter_NoDup.
  - intros s. rewrite elem_of_set_iter. set_solver.
Qed.

(** C6: without duplicates, when the candidate's elements form a proper
    superset of the reference set, the assertion raises ExtraSymbolError;
    its message is the fixed prefix followed by the names, each between two
    double-quote characters and joined by a comma and a space, of some
    enumeration without repetition of exactly the candidate's symbols that
    the reference set lacks. *)
Theorem reconcile_extra (C : list string) (R : gset string) :
  NoDup C →
  R ⊂ list_to_set C →
  ∃ syms : list string,
    assert_iterable_contains_all_expr_symbols set_iter C R
      = Err (ExtraSymbolError
               ("Received unexpected symbols: "
                  ++ String.concat ", "
                       ((λ s, String dq (s ++ String dq EmptyString))
                          <$> syms)))
    ∧ NoDup syms
    ∧ ∀ s, s ∈ syms ↔ s ∈ C ∧ s ∉ R.
Proof.
  intros Hnd Hsub. exists (set_iter (list_to_set C ∖ R)).
  split; [|split].
  - rewrite reconcile_NoDup by done.
    assert (truthy (R ∖ list_to_set C) = false) as ->.
    { apply truthy_false, difference_empty, Hsub. }
    assert (truthy (list_to_set C ∖ R) = true) as ->;
      [|by rewrite extra_msg_enumerated].
    by apply truthy_true, strict_subset_difference.
  - apply set_iter_NoDup.
  - intros s. rewrite elem_of_set_iter. set_solver.
Qed.

End Reconciler.

(** ** The assertion on mappings *)

Section Validator.

Implicit Types (M : list (string * value)) (R : gset string).

(** One turn of the loop, by the conditions it tests. *)
Lemma validate_cons_extra k v M R :
  k ∉ R →
  assert_all_valid_keys ((k, v) :: M) R
  = Err (ExtraSymbolError (not_a_symbol_msg k)).
Proof. intros Hk. cbn. by rewrite bool_decide_eq_false_2. Qed.

Lemma validate_cons_invalid k v M R :
  k ∈ R → ¬ boolean_value v →
  assert_all_valid_keys ((k, v) :: M) R
  = Err (InvalidBooleanValueError (invalid_value_msg v k)).
Proof.
  intros Hk Hv. cbn [assert_all_valid_keys].
  rewrite bool_decide_eq_true_2 by done.
  apply py_in_BOOLEAN_VALUES_false in Hv. by rewrite Hv.
Qed.

Lemma validate_cons_pass k v M R :
  k ∈ R → boolean_value v →
  assert_all_valid_keys ((k, v) :: M) R = assert_all_valid_keys M R.
Proof.
  intros Hk Hv. cbn [assert_all_valid_keys].
  rewrite bool_decide_eq_true_2 by done.
  apply py_in_BOOLEAN_VALUES in Hv. by rewrite Hv.
Qed.


(** A pair that does not pass makes the call raise. *)
Lemma validate_cons_fails k v M R :
  ¬ passes R (k, v) → assert_all_valid_keys ((k, v) :: M) R ≠ Ok.
Proof.
  intros Hn. destruct (decide (k ∈ R)) as [Hk|Hk].
  - destruct (decide (boolean_value v)) as [Hv|Hv].
    + destruct Hn. by split.
    + by rewrite validate_cons_invalid.
  - by rewrite validate_cons_extra.
Qed.

Lemma validate_ok_Forall M R :
  assert_all_valid_keys M R = Ok ↔ Forall (passes R) M.
Proof.
  induction M as [|[k v] M IH]; [by split|].
  rewrite Forall_cons. destruct (decide (passes R (k, v))) as [Hp|Hn].
  - destruct Hp as [Hk Hv]. rewrite validate_cons_pass, IH by done.
    split; [by repeat split|by intros [_ ?]].
  - split; [by intros ?%validate_cons_fails|by intros [? _]].
Qed.

(** C2: the assertion returns normally exactly when every key of the
    mapping is in the reference set and every value of the mapping is a
    member of the domain 1, 0, True, False, that is, equal by Python's [==]
    to one of the four. *)
Theorem validate_ok_iff M R :
  assert_all_valid_keys M R = Ok
  ↔ ∀ k v, (k, v) ∈ M →
      k ∈ R
      ∧ (py_eq v (VInt 1) = true ∨ py_eq v (VInt 0) = true
         ∨ py_eq v (VBool true) = true ∨ py_eq v (VBool false) = true).
Proof.
  rewrite validate_ok_Forall, Forall_forall. split.
  - intros HM k v Hin. by destruct (HM _ Hin) as [Hk Hv].
  - intros HM [k v] Hin. by destruct (HM _ _ Hin) as [Hk Hv].
Qed.



End Validator.

(** C10: the assertion on mappings returns normally on the empty mapping
    for every reference set, and the assertion on symbol collections returns
    normally on the empty candidate with the empty reference set. *)
Theorem empty_inputs_ok :
  (∀ R : gset string, assert_all_valid_keys [] R = Ok)
  ∧ ∀ set_iter, assert_iterable_contains_all_expr_symbols set_iter [] ∅ = Ok.
Proof.
  split; [done|]. intros set_iter.
  rewrite reconcile_NoDup by constructor.
  assert (truthy (∅ ∖ list_to_set []) = false) as -> by by apply truthy_false.
  assert (truthy (list_to_set [] ∖ ∅) = false) as -> by by apply truthy_false.
  done.
Qed.

(** ** The calls and the objects they are handed *)

Section Frame.

Variable set_iter : gset string → list string.

Lemma preserves_ret {A} (a : A) : Store.preserves (Store.ret a).
Proof. intros σ. cbn. reflexivity. Qed.

Lemma preserves_raise {A} e : Store.preserves (@Store.raise A e).
Proof. intros σ. cbn. reflexivity. Qed.

Lemma preserves_fault {A} : Store.preserves (@Store.fault A).
Proof. intros σ. cbn. reflexivity. Qed.

Lemma preserves_read l : Store.preserves (Store.read l).
Proof. intros σ. unfold Store.read. destruct (_ !! _); reflexivity. Qed.

Lemma preserves_alloc o : Store.preserves (Store.alloc o).
Proof. intros σ. cbn. by apply prefix_app_r. Qed.

Lemma preserves_bind {A B} (m : Store.M A) (f : A → Store.M B) :
  Store.preserves m → (∀ a, Store.preserves (f a)) →
  Store.preserves (Store.bind m f).
Proof.
  intros Hm Hf σ. unfold Store.bind. specialize (Hm σ).
  destruct (m σ) as [σ' [a|e|]]; cbn in *; [|exact Hm..].
  etrans; [exact Hm|apply Hf].
Qed.

Create HintDb frame.

#[local] Hint Resolve preserves_ret preserves_raise preserves_fault
  preserves_read preserves_alloc : frame.

(** Goes through a computation along its binds and case distinctions. *)
Ltac frame :=
  repeat first
    [ apply preserves_bind; [|intros ?]
    | solve [auto with frame]
    | match goal with
      | |- Store.preserves (match ?x with _ => _ end) => destruct x
      end ].

Lemma preserves_iterate x : Store.preserves (Store.iterate set_iter x).
Proof. unfold Store.iterate. frame. Qed.

Lemma preserves_py_len x : Store.preserves (Store.py_len x).
Proof. unfold Store.py_len. frame. Qed.

#[local] Hint Resolve preserves_iterate preserves_py_len : frame.

Lemma preserves_py_list x : Store.preserves (Store.py_list set_iter x).
Proof. unfold Store.py_list. frame. Qed.

Lemma preserves_py_set x : Store.preserves (Store.py_set set_iter x).
Proof. unfold Store.py_set. frame. Qed.

Lemma preserves_py_sub a b : Store.preserves (Store.py_sub a b).
Proof. unfold Store.py_sub. frame. Qed.

Lemma preserves_py_bool x : Store.preserves (Store.py_bool x).
Proof. unfold Store.py_bool. frame. Qed.

Lemma preserves_py_contains k x : Store.preserves (Store.py_contains k x).
Proof. unfold Store.py_contains. frame. Qed.

Lemma preserves_py_items x : Store.preserves (Store.py_items x).
Proof. unfold Store.py_items. frame. Qed.

#[local] Hint Resolve preserves_py_list preserves_py_set preserves_py_sub
  preserves_py_bool preserves_py_contains preserves_py_items : frame.

Lemma preserves_reconcile c r :
  Store.preserves
    (Store.assert_iterable_contains_all_expr_symbols set_iter c r).
Proof. unfold Store.assert_iterable_contains_all_expr_symbols. frame. Qed.

Lemma preserves_check_items items r :
  Store.preserves (Store.check_items items r).
Proof.
  induction items as [|[k v] items IH]; cbn [Store.check_items]; frame.
Qed.

#[local] Hint Resolve preserves_check_items : frame.

Lemma preserves_validate d r :
  Store.preserves (Store.assert_all_valid_keys d r).
Proof. unfold Store.assert_all_valid_keys. frame. Qed.

(** C9: whatever the candidate argument refers to and whether the call
    returns or raises, the set that the reference argument refers to is
    the same set after a call of either assertion. *)
Theorem reference_set_unchanged (σ : Store.store) (cand r : Store.loc)
    (R : gset string) :
  σ !! r = Some (Store.OSet R) →
  (Store.assert_iterable_contains_all_expr_symbols set_iter cand r σ).1 !! r
    = Some (Store.OSet R)
  ∧ (Store.assert_all_valid_keys cand r σ).1 !! r = Some (Store.OSet R).
Proof.
  intros Hr. split.
  - eapply prefix_lookup_Some; [exact Hr|apply preserves_reconcile].
  - eapply prefix_lookup_Some; [exact Hr|apply preserves_validate].
Qed.

End Frame.

(** ** The store version runs the same code *)

Section Refinement.

Variable set_iter : gset string → list string.

Lemma bind_Return {A B} (m : Store.M A) (f : A → Store.M B) σ σ' a :
  m σ = (σ', Store.Return a) → Store.bind m f σ = f a σ'.
Proof. intros Hm. unfold Store.bind. by rewrite Hm. Qed.

Lemma read_Some (σ : Store.store) (l : Store.loc) o :
  σ !! l = Some o → Store.read l σ = (σ, Store.Return o).
Proof. intros Hl. unfold Store.read. by rewrite Hl. Qed.

Lemma lookup_new (σ : Store.store) o : (σ ++ [o])%list !! length σ = Some o.
Proof. by apply list_lookup_middle. Qed.

Lemma iterate_OList (σ : Store.store) x l :
  σ !! x = Some (Store.OList l) →
  Store.iterate set_iter x σ = (σ, Store.Return l).
Proof.
  intros Hx. unfold Store.iterate.
  by rewrite (bind_Return _ _ _ _ _ (read_Some _ _ _ Hx)).
Qed.

Lemma iterate_OSet (σ : Store.store) x X :
  σ !! x = Some (Store.OSet X) →
  Store.iterate set_iter x σ = (σ, Store.Return (set_iter X)).
Proof.
  intros Hx. unfold Store.iterate.
  by rewrite (bind_Return _ _ _ _ _ (read_Some _ _ _ Hx)).
Qed.

Lemma py_list_OList (σ : Store.store) x l :
  σ !! x = Some (Store.OList l) →
  Store.py_list set_iter x σ
  = ((σ ++ [Store.OList l])%list, Store.Return (length σ)).
Proof.
  intros Hx. unfold Store.py_list.
  by rewrite (bind_Return _ _ _ _ _ (iterate_OList _ _ _ Hx)).
Qed.

Lemma py_set_OList (σ : Store.store) x l :
  σ !! x = Some (Store.OList l) →
  Store.py_set set_iter x σ
  = ((σ ++ [Store.OSet (list_to_set l)])%list, Store.Return (length σ)).
Proof.
  intros Hx. unfold Store.py_set.
  by rewrite (bind_Return _ _ _ _ _ (iterate_OList _ _ _ Hx)).
Qed.

Lemma py_len_OList (σ : Store.store) x l :
  σ !! x = Some (Store.OList l) →
  Store.py_len x σ = (σ, Store.Return (length l)).
Proof.
  intros Hx. unfold Store.py_len.
  by rewrite (bind_Return _ _ _ _ _ (read_Some _ _ _ Hx)).
Qed.

Lemma py_len_OSet (σ : Store.store) x X :
  σ !! x = Some (Store.OSet X) →
  Store.py_len x σ = (σ, Store.Return (size X)).
Proof.
  intros Hx. unfold Store.py_len.
  by rewrite (bind_Return _ _ _ _ _ (read_Some _ _ _ Hx)).
Qed.

Lemma py_bool_OSet (σ : Store.store) x X :
  σ !! x = Some (Store.OSet X) →
  Store.py_bool x σ = (σ, Store.Return (truthy X)).
Proof.
  intros Hx. unfold Store.py_bool.
  by rewrite (bind_Return _ _ _ _ _ (py_len_OSet _ _ _ Hx)).
Qed.

Lemma py_sub_OSet (σ : Store.store) a b X Y :
  σ !! a = Some (Store.OSet X) → σ !! b = Some (Store.OSet Y) →
  Store.py_sub a b σ
  = ((σ ++ [Store.OSet (X ∖ Y)])%list, Store.Return (length σ)).
Proof.
  intros Ha Hb. unfold Store.py_sub.
  rewrite (bind_Return _ _ _ _ _ (read_Some _ _ _ Ha)).
  by rewrite (bind_Return _ _ _ _ _ (read_Some _ _ _ Hb)).
Qed.

Lemma py_contains_OSet (σ : Store.store) k x X :
  σ !! x = Some (Store.OSet X) →
  Store.py_contains k x σ = (σ, Store.Return (bool_decide (k ∈ X))).
Proof.
  intros Hx. unfold Store.py_contains.
  by rewrite (bind_Return _ _ _ _ _ (read_Some _ _ _ Hx)).
Qed.

(** On a list of symbols and a set of symbols the store version raises
    what the function on values raises, and returns when it returns. *)
Lemma reconcile_refines (σ : Store.store) c r C R :
  σ !! c = Some (Store.OList C) → σ !! r = Some (Store.OSet R) →
  (Store.assert_iterable_contains_all_expr_symbols set_iter c r σ).2
  = Store.of_result (assert_iterable_contains_all_expr_symbols set_iter C R).
Proof.
  intros Hc Hr.
  unfold Store.assert_iterable_contains_all_expr_symbols,
    assert_iterable_contains_all_expr_symbols.
  rewrite (bind_Return _ _ _ _ _ (py_list_OList _ _ _ Hc)).
  set (σ1 := (σ ++ [Store.OList C])%list).
  assert (σ1 !! length σ = Some (Store.OList C)) as Hl by apply lookup_new.
  rewrite (bind_Return _ _ _ _ _ (py_set_OList _ _ _ Hl)).
  set (σ2 := (σ1 ++ [Store.OSet (list_to_set C)])%list).
  assert (σ2 !! length σ = Some (Store.OList C)) as Hl2
    by by apply lookup_app_l_Some.
  assert (σ2 !! length σ1 = Some (Store.OSet (list_to_set C))) as Hs
    by apply lookup_new.
  assert (σ2 !! r = Some (Store.OSet R)) as Hr2
    by by do 2 apply lookup_app_l_Some.
  rewrite (bind_Return _ _ _ _ _ (py_len_OList _ _ _ Hl2)).
  rewrite (bind_Return _ _ _ _ _ (py_len_OSet _ _ _ Hs)).
  destruct (negb (bool_decide (length C = size (list_to_set C)))); [done|].
  rewrite (bind_Return _ _ _ _ _ (py_sub_OSet _ _ _ _ _ Hs Hr2)).
  set (σ3 := (σ2 ++ [Store.OSet (list_to_set C ∖ R)])%list).
  assert (σ3 !! length σ1 = Some (Store.OSet (list_to_set C))) as Hs3
    by by apply lookup_app_l_Some.
  assert (σ3 !! r = Some (Store.OSet R)) as Hr3
    by by apply lookup_app_l_Some.
  assert (σ3 !! length σ2 = Some (Store.OSet (list_to_set C ∖ R))) as He
    by apply lookup_new.
  rewrite (bind_Return _ _ _ _ _ (py_sub_OSet _ _ _ _ _ Hr3 Hs3)).
  set (σ4 := (σ3 ++ [Store.OSet (R ∖ list_to_set C)])%list).
  assert (σ4 !! length σ3 = Some (Store.OSet (R ∖ list_to_set C))) as Hm
    by apply lookup_new.
  assert (σ4 !! length σ2 = Some (Store.OSet (list_to_set C ∖ R))) as He4
    by by apply lookup_app_l_Some.
  rewrite (bind_Return _ _ _ _ _ (py_bool_OSet _ _ _ Hm)).
  destruct (truthy (R ∖ list_to_set C)).
  { by rewrite (bind_Return _ _ _ _ _ (iterate_OSet _ _ _ Hm)). }
  rewrite (bind_Return _ _ _ _ _ (py_bool_OSet _ _ _ He4)).
  destruct (truthy (list_to_set C ∖ R)); [|done].
  by rewrite (bind_Return _ _ _ _ _ (iterate_OSet _ _ _ He4)).
Qed.

Lemma check_items_refines (σ : Store.store) items r R :
  σ !! r = Some (Store.OSet R) →
  Store.check_items items r σ
  = (σ, Store.of_result (assert_all_valid_keys items R)).
Proof.
  intros Hr. induction items as [|[k v] items IH]; [done|].
  cbn [Store.check_items assert_all_valid_keys].
  rewrite (bind_Return _ _ _ _ _ (py_contains_OSet _ k _ _ Hr)).
  destruct (negb (bool_decide (k ∈ R))); [done|].
  by destruct (negb (py_in v BOOLEAN_VALUES)).
Qed.

Lemma validate_refines (σ : Store.store) d r D R :
  σ !! d = Some (Store.ODict D) → σ !! r = Some (Store.OSet R) →
  (Store.assert_all_valid_keys d r σ).2
  = Store.of_result (assert_all_valid_keys D R).
Proof.
  intros Hd Hr. unfold Store.assert_all_valid_keys, Store.py_items.
  rewrite (bind_Return _ (λ items, Store.check_items items r) σ σ D).
  - by rewrite (check_items_refines _ _ _ _ Hr).
  - by rewrite (bind_Return _ _ _ _ _ (read_Some _ _ _ Hd)).
Qed.

End Refinement.

Ltac by_computation := apply (bool_decide_unpack _); vm_compute; exact I.

Lemma reconcile_ok_iff_witness :
  NoDup [sA; sB; sC]
  ∧ (assert_iterable_contains_all_expr_symbols elements [sA; sB; sC]
       {[sA; sB; sC]} = Ok
     ↔ (list_to_set [sA; sB; sC] : gset string) = {[sA; sB; sC]}).
Proof.
  assert (NoDup [sA; sB; sC]) as Hnd by by_computation.
  split; [exact Hnd|]. exact (reconcile_ok_iff elements [sA; sB; sC] _ Hnd).
Defined.

Lemma reconcile_duplicate_first_witness :
  0 ≠ 1 ∧ [sA; sA; sB] !! 0 = Some sA ∧ [sA; sA; sB] !! 1 = Some sA
  ∧ ∀ R : gset string,
      assert_iterable_contains_all_expr_symbols elements [sA; sA; sB] R
      = Err (DuplicateSymbolError "Received duplicate symbols").
Proof.
  assert (0 ≠ 1) as Hne by lia.
  split; [exact Hne|]. split; [reflexivity|]. split; [reflexivity|].
  exact (reconcile_duplicate_first elements [sA; sA; sB] 0 1 sA
           Hne eq_refl eq_refl).
Defined.

Lemma reconcile_missing_before_extra_witness :
  NoDup [sA; sB]
  ∧ ({[sA; sC]} : gset string) ∖ list_to_set [sA; sB] ≠ ∅
  ∧ (list_to_set [sA; sB] : gset string) ∖ {[sA; sC]} ≠ ∅
  ∧ assert_iterable_contains_all_expr_symbols elements [sA; sB] {[sA; sC]}
    = Err (MissingSymbolError
             (missing_msg
                (elements (({[sA; sC]} : gset string) ∖ list_to_set [sA; sB]))))
  ∧ ∀ msg,
      assert_iterable_contains_all_expr_symbols elements [sA; sB] {[sA; sC]}
      ≠ Err (ExtraSymbolError msg).
Proof.
  assert (NoDup [sA; sB]) as Hnd by by_computation.
  assert (({[sA; sC]} : gset string) ∖ list_to_set [sA; sB] ≠ ∅) as Hm
    by by_computation.
  assert ((list_to_set [sA; sB] : gset string) ∖ {[sA; sC]} ≠ ∅) as He
    by by_computation.
  split; [exact Hnd|]. split; [exact Hm|]. split; [exact He|].
  exact (reconcile_missing_before_extra elements [sA; sB] {[sA; sC]} Hnd Hm He).
Defined.

Lemma reconcile_missing_witness :
  (∀ X : gset string, elements X ≡ₚ elements X)
  ∧ NoDup [sA; sB]
  ∧ (list_to_set [sA; sB] : gset string) ⊂ {[sA; sB; sC]}
  ∧ ∃ syms : list string,
      assert_iterable_contains_all_expr_symbols elements [sA; sB]
        {[sA; sB; sC]}
        = Err (MissingSymbolError
                 ("Did not receive value for the following symbols: "
                    ++ String.concat ", "
                         ((λ s, String dq (s ++ String dq EmptyString))
                            <$> syms)))
      ∧ NoDup syms
      ∧ ∀ s, s ∈ syms ↔ s ∈ ({[sA; sB; sC]} : gset string) ∧ s ∉ [sA; sB].
Proof.
  assert (∀ X : gset string, elements X ≡ₚ elements X) as Hperm
    by (intros X; reflexivity).
  assert (NoDup [sA; sB]) as Hnd by by_computation.
  assert ((list_to_set [sA; sB] : gset string) ⊂ {[sA; sB; sC]}) as Hsub
    by by_computation.
  split; [exact Hperm|]. split; [exact Hnd|]. split; [exact Hsub|].
  exact (reconcile_missing elements Hperm [sA; sB] {[sA; sB; sC]} Hnd Hsub).
Defined.

Lemma reconcile_extra_witness :
  (∀ X : gset string, elements X ≡ₚ elements X)
  ∧ NoDup [sA; sB; sC]
  ∧ ({[sA; sB]} : gset string) ⊂ list_to_set [sA; sB; sC]
  ∧ ∃ syms : list string,
      assert_iterable_contains_all_expr_symbols elements [sA; sB; sC]
        {[sA; sB]}
        = Err (ExtraSymbolError
                 ("Received unexpected symbols: "
                    ++ String.concat ", "
                         ((λ s, String dq (s ++ String dq EmptyString))
                            <$> syms)))
      ∧ NoDup syms
      ∧ ∀ s, s ∈ syms ↔ s ∈ [sA; sB; sC] ∧ s ∉ ({[sA; sB]} : gset string).
Proof.
  assert (∀ X : gset string, elements X ≡ₚ elements X) as Hperm
    by (intros X; reflexivity).
  assert (NoDup [sA; sB; sC]) as Hnd by by_computation.
  assert (({[sA; sB]} : gset string) ⊂ list_to_set [sA; sB; sC]) as Hsub
    by by_computation.
  split; [exact Hperm|]. split; [exact Hnd|]. split; [exact Hsub|].
  exact (reconcile_extra elements Hperm [sA; sB; sC] {[sA; sB]} Hnd Hsub).
Defined.




Lemma reference_set_unchanged_witness :
  example_store !! 1 = Some (Store.OSet {[sA; sB; sC]})
  ∧ (Store.assert_iterable_contains_all_expr_symbols elements 0 1
       example_store).1 !! 1
    = Some (Store.OSet {[sA; sB; sC]})
  ∧ (Store.assert_all_valid_keys 0 1 example_store).1 !! 1
    = Some (Store.OSet {[sA; sB; sC]}).
Proof.
  split; [reflexivity|].
  exact (reference_set_unchanged elements example_store 0 1 {[sA; sB; sC]}
           eq_refl).
Defined.

(** ** The scenarios of the documentation *)

Example reconcile_all_good :
  assert_iterable_contains_all_expr_symbols elements [sA; sB; sC]
    {[sA; sB; sC]} = Ok.
Proof. by vm_compute. Qed.

Example reconcile_duplicate_symbol :
  assert_iterable_contains_all_expr_symbols elements [sA; sA; sB] {[sA; sB]}
  = Err (DuplicateSymbolError "Received duplicate symbols").
Proof. by vm_compute. Qed.

Example reconcile_extra_symbol :
  assert_iterable_contains_all_expr_symbols elements [sA; sB; sC] {[sA; sB]}
  = Err (ExtraSymbolError
           ("Received unexpected symbols: "
              ++ String dq ("C" ++ String dq EmptyString))).
Proof. by vm_compute. Qed.

Example reconcile_missing_symbol :
  assert_iterable_contains_all_expr_symbols elements [sA; sB] {[sA; sB; sC]}
  = Err (MissingSymbolError
           ("Did not receive value for the following symbols: "
              ++ String dq ("C" ++ String dq EmptyString))).
Proof. by vm_compute. Qed.

(** Two missing symbols, enumerated in the order [B], [A]. *)
Example reconcile_missing_two_symbols :
  assert_iterable_contains_all_expr_symbols (λ _, [sB; sA]) [] {[sA; sB]}
  = Err (MissingSymbolError
           ("Did not receive value for the following symbols: "
              ++ String dq ("B" ++ String dq (", "
              ++ String dq ("A" ++ String dq EmptyString))))).
Proof. by vm_compute. Qed.

Example validate_all_good :
  assert_all_valid_keys [(sA, VBool true); (sB, VBool false)] {[sA; sB]} = Ok.
Proof. by vm_compute. Qed.

Example validate_extra_symbol :
  assert_all_valid_keys [(sA, VInt 1); (sB, VInt 0)] {[sA]}
  = Err (ExtraSymbolError
           (String dq ("B" ++ String dq
              " is not a symbol in this expression"))).
Proof. by vm_compute. Qed.

Example validate_invalid_boolean_value :
  assert_all_valid_keys [(sA, VStr "brian"); (sB, VBool true)] {[sA; sB]}
  = Err (InvalidBooleanValueError
           (String dq ("brian" ++ String dq (" passed as value for "
              ++ String dq ("A" ++ String dq
                   " is not a valid Boolean value"))))).
Proof. by vm_compute. Qed.

(** ** Values of other types than bool

    The test is made with Python's [==]: the floats 1.0 and -0.0 are
    accepted although neither is one of the four listed objects; the float
    0.5, the integers 2 and -12 and the string of the digit 1 are not. *)

Example validate_float_one :
  (VFloat float_one "1.0" ∉ BOOLEAN_VALUES)
  ∧ assert_all_valid_keys
      [(sA, VFloat float_one "1.0"); (sB, VFloat float_neg_zero "-0.0")]
      {[sA; sB]} = Ok.
Proof. split; [by_computation|by vm_compute]. Qed.

Example validate_float_half :
  assert_all_valid_keys [(sA, VFloat float_half "0.5")] {[sA]}
  = Err (InvalidBooleanValueError
           (String dq ("0.5" ++ String dq (" passed as value for "
              ++ String dq ("A" ++ String dq
                   " is not a valid Boolean value"))))).
Proof. by vm_compute. Qed.

Example validate_int_minus_twelve :
  assert_all_valid_keys [(sA, VInt 1); (sB, VInt (-12))] {[sA; sB]}
  = Err (InvalidBooleanValueError
           (String dq ("-12" ++ String dq (" passed as value for "
              ++ String dq ("B" ++ String dq
                   " is not a valid Boolean value"))))).
Proof. by vm_compute. Qed.

Example validate_digit_string :
  assert_all_valid_keys [(sA, VStr "1")] {[sA]}
  = Err (InvalidBooleanValueError
           (String dq ("1" ++ String dq (" passed as value for "
              ++ String dq ("A" ++ String dq
                   " is not a valid Boolean value"))))).
Proof. by vm_compute. Qed.

Example validate_none :
  assert_all_valid_keys [(sA, VNone)] {[sA]}
  = Err (InvalidBooleanValueError
           (String dq ("None" ++ String dq (" passed as value for "
              ++ String dq ("A" ++ String dq
                   " is not a valid Boolean value"))))).
Proof. by vm_compute. Qed.

(** Equality between numbers of different types is by value. *)
Example py_eq_numbers :
  py_eq (VBool true) (VInt 1) = true
  ∧ py_eq (VInt 0) (VBool false) = true
  ∧ py_eq (VFloat float_one "1.0") (VBool true) = true
  ∧ py_eq (VFloat float_one "1.0") (VInt 1) = true
  ∧ py_eq (VFloat float_neg_zero "-0.0") (VInt 0) = true
  ∧ py_eq (VFloat float_half "0.5") (VInt 0) = false
  ∧ py_eq (VFloat S754_nan "nan") (VFloat S754_nan "nan") = false
  ∧ py_eq (VFloat (S754_infinity false) "inf") (VInt 1) = false
  ∧ py_eq (VInt 2) (VBool true) = false
  ∧ py_eq (VStr "1") (VInt 1) = false
  ∧ py_eq VNone (VBool false) = false.
Proof. by vm_compute. Qed.

(** The store version on the first scenario: the call returns, two lists
    and two sets have been allocated, and the arguments are as they were. *)
Example store_reconcile_all_good :
  Store.assert_iterable_contains_all_expr_symbols elements 0 1
    [Store.OList [sA; sB]; Store.OSet {[sA; sB]}]
  = ([Store.OList [sA; sB]; Store.OSet {[sA; sB]};
      Store.OList [sA; sB]; Store.OSet (list_to_set [sA; sB]);
      Store.OSet ∅; Store.OSet ∅],
     Store.Return tt).
Proof. by vm_compute. Qed.

(** * Further properties of the two assertions *)

(** ** The symbol-set assertion: which outcome arises when *)

Section ReconcilerOutcomes.

Variable set_iter : gset string → list string.

Implicit Types (C : list string) (R : gset string).

Lemma difference_non_empty (X Y : gset string) :
  X ∖ Y ≠ ∅ ↔ ∃ s, s ∈ X ∧ s ∉ Y.
Proof.
  split.
  - intros [s Hs%elem_of_difference]%set_choose_L. by exists s.
  - intros (s & Hs & Hn). apply (non_empty_inhabited_L s).
    by apply elem_of_difference.
Qed.

Lemma reconcile_ok_NoDup C R :
  assert_iterable_contains_all_expr_symbols set_iter C R = Ok
  ↔ NoDup C ∧ list_to_set C = R.
Proof.
  destruct (decide (NoDup C)) as [Hnd|Hdup].
  - rewrite reconcile_NoDup by done. split.
    + destruct (truthy (R ∖ list_to_set C)) eqn:Hm; [discriminate|].
      destruct (truthy (list_to_set C ∖ R)) eqn:He; [discriminate|].
      intros _. apply truthy_false, difference_empty in Hm.
      apply truthy_false, difference_empty in He. split; [done|set_solver].
    + intros [_ <-].
      assert (truthy (list_to_set C ∖ list_to_set C) = false) as ->; [|done].
      apply truthy_false. set_solver.
  - rewrite reconcile_duplicate by done. split; [discriminate|by intros [? _]].
Qed.

(** X1: the assertion returns normally exactly when the candidate lists
    the symbols of the reference set, each once, in some order. *)
Theorem reconcile_ok_Permutation C R :
  assert_iterable_contains_all_expr_symbols set_iter C R = Ok
  ↔ C ≡ₚ elements R.
Proof.
  rewrite reconcile_ok_NoDup. split.
  - intros [Hnd <-]. apply NoDup_Permutation; [done|apply NoDup_elements|].
    intros s. by rewrite elem_of_elements, elem_of_list_to_set.
  - intros Hp. split.
    + rewrite Hp. apply NoDup_elements.
    + rewrite Hp. apply list_to_set_elements_L.
Qed.

(** X3: DuplicateSymbolError is raised exactly when the candidate is not free
    of duplicates, and its message is then the fixed one. *)
Theorem reconcile_duplicate_iff C R msg :
  assert_iterable_contains_all_expr_symbols set_iter C R
  = Err (DuplicateSymbolError msg)
  ↔ ¬ NoDup C ∧ msg = "Received duplicate symbols".
Proof.
  destruct (decide (NoDup C)) as [Hnd|Hdup].
  - rewrite reconcile_NoDup by done. split; [|by intros [? _]].
    by repeat case_match.
  - rewrite reconcile_duplicate by done. split.
    + by intros [= <-].
    + by intros [_ ->].
Qed.

(** X4: MissingSymbolError is raised exactly when the candidate has no
    duplicates and some symbol of the reference set is not in it, whether
    or not the candidate also has symbols unknown to the reference set. *)
Theorem reconcile_missing_iff C R :
  (∃ msg, assert_iterable_contains_all_expr_symbols set_iter C R
          = Err (MissingSymbolError msg))
  ↔ NoDup C ∧ ∃ s, s ∈ R ∧ s ∉ C.
Proof.
  assert ((∃ s, s ∈ R ∧ s ∉ C) ↔ truthy (R ∖ list_to_set C) = true) as ->.
  { rewrite truthy_true, difference_non_empty.
    by setoid_rewrite elem_of_list_to_set. }
  destruct (decide (NoDup C)) as [Hnd|Hdup].
  - rewrite reconcile_NoDup by done. split.
    + intros [msg Hr]. split; [done|]. by repeat case_match.
    + intros [_ ->]. by eexists.
  - rewrite reconcile_duplicate by done. split; [by intros [? ?]|].
    by intros [? _].
Qed.

(** X5: ExtraSymbolError is raised exactly when the candidate has no
    duplicates, holds every symbol of the reference set, and holds some
    symbol that is not in the reference set. *)
Theorem reconcile_extra_iff C R :
  (∃ msg, assert_iterable_contains_all_expr_symbols set_iter C R
          = Err (ExtraSymbolError msg))
  ↔ NoDup C ∧ (∀ s, s ∈ R → s ∈ C) ∧ ∃ s, s ∈ C ∧ s ∉ R.
Proof.
  assert ((∀ s, s ∈ R → s ∈ C) ↔ truthy (R ∖ list_to_set C) = false) as ->.
  { rewrite truthy_false, difference_empty. unfold subseteq, set_subseteq_instance.
    by setoid_rewrite elem_of_list_to_set. }
  assert ((∃ s, s ∈ C ∧ s ∉ R) ↔ truthy (list_to_set C ∖ R) = true) as ->.
  { rewrite truthy_true, difference_non_empty.
    by setoid_rewrite elem_of_list_to_set. }
  destruct (decide (NoDup C)) as [Hnd|Hdup].
  - rewrite reconcile_NoDup by done. split.
    + intros [msg Hr]. split; [done|]. by repeat case_match.
    + intros (_ & -> & ->). by eexists.
  - rewrite reconcile_duplicate by done. split; [by intros [? ?]|].
    by intros [? _].
Qed.

(** What is known about the iteration order of a set. *)
Hypothesis set_iter_perm : ∀ X, set_iter X ≡ₚ elements X.

(** X6: whenever MissingSymbolError is raised, its message is the fixed
    prefix followed by the names, each between two double-quote characters
    and joined by a comma and a space, of an enumeration without repetition
    of exactly the reference symbols the candidate lacks; the enumeration
    is not empty, and symbols that only the candidate has are not part of
    it. *)
Theorem reconcile_missing_message C R msg :
  assert_iterable_contains_all_expr_symbols set_iter C R
  = Err (MissingSymbolError msg) →
  ∃ syms : list string,
    msg = "Did not receive value for the following symbols: "
            ++ String.concat ", "
                 ((λ s, String dq (s ++ String dq EmptyString)) <$> syms)
    ∧ syms ≠ []
    ∧ NoDup syms
    ∧ ∀ s, s ∈ syms ↔ s ∈ R ∧ s ∉ C.
Proof.
  destruct (decide (NoDup C)) as [Hnd|Hdup];
    [|by rewrite reconcile_duplicate by done].
  rewrite reconcile_NoDup by done.
  destruct (truthy (R ∖ list_to_set C)) eqn:Hm; [|by case_match].
  intros [= <-]. exists (set_iter (R ∖ list_to_set C)).
  assert (∀ s, s ∈ set_iter (R ∖ list_to_set C) ↔ s ∈ R ∧ s ∉ C) as Hel.
  { intros s. rewrite set_iter_perm, elem_of_elements, elem_of_difference.
    by rewrite elem_of_list_to_set. }
  split; [apply missing_msg_enumerated|]. split; [|split; [|done]].
  - apply truthy_true, difference_non_empty in Hm as (s & Hs & Hn).
    intros Hnil. rewrite elem_of_list_to_set in Hn.
    assert (s ∈ set_iter (R ∖ list_to_set C)) as Hin by by apply Hel.
    rewrite Hnil in Hin. by apply elem_of_nil in Hin.
  - rewrite set_iter_perm. apply NoDup_elements.
Qed.

(** X7: the edge cases of an empty side.  An empty candidate against a
    reference set that is not empty raises MissingSymbolError, and the
    message enumerates, between double quotes and joined by a comma and a
    space, every symbol of the reference set once; a candidate without
    duplicates that is not empty, against the empty reference set, raises
    ExtraSymbolError, and the message enumerates every symbol of the
    candidate once. *)
Theorem reconcile_empty_side C R :
  (R ≠ ∅ →
   ∃ syms : list string,
     syms ≡ₚ elements R
     ∧ assert_iterable_contains_all_expr_symbols set_iter [] R
       = Err (MissingSymbolError
                ("Did not receive value for the following symbols: "
                   ++ String.concat ", "
                        ((λ s, String dq (s ++ String dq EmptyString))
                           <$> syms))))
  ∧ (NoDup C → C ≠ [] →
     ∃ syms : list string,
       syms ≡ₚ C
       ∧ assert_iterable_contains_all_expr_symbols set_iter C ∅
         = Err (ExtraSymbolError
                  ("Received unexpected symbols: "
                     ++ String.concat ", "
                          ((λ s, String dq (s ++ String dq EmptyString))
                             <$> syms)))).
Proof.
  split.
  - intros HR. exists (set_iter R). split; [apply set_iter_perm|].
    rewrite reconcile_NoDup by constructor.
    assert (R ∖ list_to_set [] = R) as -> by set_solver.
    apply truthy_true in HR. by rewrite HR, missing_msg_enumerated.
  - intros Hnd HC. exists (set_iter (list_to_set C)). split.
    { rewrite set_iter_perm. by apply elements_list_to_set. }
    rewrite reconcile_NoDup by done.
    assert (truthy (∅ ∖ list_to_set C) = false) as ->.
    { apply truthy_false. set_solver. }
    assert ((list_to_set C : gset string) ∖ ∅ = list_to_set C) as ->
      by set_solver.
    assert (truthy (list_to_set C) = true) as ->;
      [|by rewrite extra_msg_enumerated].
    apply truthy_true. destruct C as [|s C]; [done|].
    apply (non_empty_inhabited_L s). set_solver.
Qed.

(** The order in which a set is iterated can differ from one call to the
    next, also for sets with the same elements; a second call has an
    enumeration of its own. *)
Variable set_iter' : gset string → list string.
Hypothesis set_iter'_perm : ∀ X, set_iter' X ≡ₚ elements X.

(** X2: two calls whose candidates list the same symbols in different
    orders end alike: both return, or both raise the same exception; the
    messages of MissingSymbolError and of ExtraSymbolError enumerate the
    same symbols, possibly in different orders. *)
Theorem reconcile_Permutation C C' R :
  C ≡ₚ C' →
  same_up_to_order
    (assert_iterable_contains_all_expr_symbols set_iter C R)
    (assert_iterable_contains_all_expr_symbols set_iter' C' R).
Proof.
  intros Hp. unfold assert_iterable_contains_all_expr_symbols.
  assert ((list_to_set C : gset string) = list_to_set C') as ->
    by by rewrite Hp.
  rewrite (Permutation_length Hp).
  destruct (negb _); [done|].
  destruct (truthy (R ∖ list_to_set C')).
  { cbn. eexists _, _. split; [|split; apply missing_msg_enumerated].
    by rewrite set_iter_perm, set_iter'_perm. }
  destruct (truthy (list_to_set C' ∖ R)); [|done].
  cbn. eexists _, _. split; [|split; apply extra_msg_enumerated].
  by rewrite set_iter_perm, set_iter'_perm.
Qed.

End ReconcilerOutcomes.

(** ** The assertion on mappings: composition, order and failure *)

Section ValidatorOutcomes.

Implicit Types (M : list (string * value)) (R : gset string).

(** X8: validating two mappings laid end to end is validating the first
    and, if that returns normally, the second; an error of the first is
    the error of the whole. *)
Theorem validate_app M1 M2 R :
  assert_all_valid_keys (M1 ++ M2) R
  = match assert_all_valid_keys M1 R with
    | Ok => assert_all_valid_keys M2 R
    | Err e => Err e
    end.
Proof.
  induction M1 as [|[k v] M1 IH]; [done|].
  cbn [app assert_all_valid_keys].
  destruct (negb (bool_decide (k ∈ R))); [done|].
  by destruct (negb (py_in v BOOLEAN_VALUES)).
Qed.

(** X9: every error comes from a first pair that does not pass: the pairs
    before it pass; either its key is not in the reference set and the
    error is ExtraSymbolError with that key between double quotes in the
    message, or its key is in the reference set, its value is not a member
    of the domain, and the error is InvalidBooleanValueError with the text
    of that value and that key between double quotes in the message. *)
Theorem validate_error_inv M R e :
  assert_all_valid_keys M R = Err e →
  ∃ pre k v post,
    M = (pre ++ (k, v) :: post)%list
    ∧ Forall (passes R) pre
    ∧ (((k ∉ R)
        ∧ e = ExtraSymbolError
                (String dq (k ++ String dq
                   " is not a symbol in this expression")))
       ∨ (k ∈ R ∧ (¬ boolean_value v)
          ∧ ∃ text,
              value_text v text
              ∧ e = InvalidBooleanValueError
                      (String dq (text ++ String dq (" passed as value for "
                         ++ String dq (k ++ String dq
                              " is not a valid Boolean value")))))).
Proof.
  induction M as [|[k v] M IH]; [discriminate|].
  destruct (decide (k ∈ R)) as [Hk|Hk].
  - destruct (decide (boolean_value v)) as [Hv|Hv].
    + rewrite validate_cons_pass by done.
      intros (pre & k' & v' & post & -> & Hpre & Hcase)%IH.
      exists ((k, v) :: pre), k', v', post.
      split; [done|]. split; [|done]. by constructor.
    + rewrite validate_cons_invalid by done. intros [= <-].
      exists [], k, v, M. split; [done|]. split; [constructor|]. right.
      split; [done|]. split; [done|]. exists (py_str v).
      split; [apply value_text_py_str|].
      by rewrite (invalid_value_msg_text v k _ (value_text_py_str v)).
  - rewrite validate_cons_extra by done. intros [= <-].
    exists [], k, v, M. split; [done|]. split; [constructor|]. by left.
Qed.

(** X10: whether the assertion returns normally does not depend on the
    order of the pairs (which error is raised does). *)
Theorem validate_ok_Permutation M M' R :
  M ≡ₚ M' →
  assert_all_valid_keys M R = Ok ↔ assert_all_valid_keys M' R = Ok.
Proof.
  intros Hp. rewrite !validate_ok_Forall. by rewrite Hp.
Qed.

(** X11: a normal return is kept when pairs are taken out of the mapping
    and when symbols are added to the reference set. *)
Theorem validate_ok_mono M M' R R' :
  M' ⊆ M → R ⊆ R' →
  assert_all_valid_keys M R = Ok → assert_all_valid_keys M' R' = Ok.
Proof.
  intros HM HR. rewrite !validate_ok_Forall, !Forall_forall.
  intros Hall kv Hin. destruct (Hall kv (HM _ Hin)) as [Hk Hv].
  split; [by apply HR|done].
Qed.

Lemma validate_error_kind M R e :
  assert_all_valid_keys M R = Err e →
  (∃ m, e = ExtraSymbolError m) ∨ (∃ m, e = InvalidBooleanValueError m).
Proof.
  induction M as [|[k v] M IH]; [discriminate|].
  cbn [assert_all_valid_keys].
  destruct (negb (bool_decide (k ∈ R))); [intros [= <-]; eauto|].
  destruct (negb (py_in v BOOLEAN_VALUES)); [intros [= <-]; eauto|done].
Qed.

(** X12: the exceptions each assertion can raise.  The assertion on symbol
    collections raises no InvalidBooleanValueError; the assertion on
    mappings raises neither DuplicateSymbolError nor MissingSymbolError. *)
Theorem raised_exceptions set_iter (C : list string) M R msg :
  assert_iterable_contains_all_expr_symbols set_iter C R
  ≠ Err (InvalidBooleanValueError msg)
  ∧ assert_all_valid_keys M R ≠ Err (DuplicateSymbolError msg)
  ∧ assert_all_valid_keys M R ≠ Err (MissingSymbolError msg).
Proof.
  split.
  - unfold assert_iterable_contains_all_expr_symbols. by repeat case_match.
  - split; intros [[m ?]|[m ?]]%validate_error_kind; discriminate.
Qed.

End ValidatorOutcomes.

(** ** The two assertions on one mapping

    The assertion on mappings does not look for absent keys, and the
    assertion on symbol collections does not look at values; a caller can
    apply the second to the keys of the mapping and the first to the
    mapping. *)

Section Combined.

Variable set_iter : gset string → list string.

Implicit Types (M : list (string * value)) (R : gset string).

Lemma validate_extra_key M R msg :
  assert_all_valid_keys M R = Err (ExtraSymbolError msg) →
  ∃ k, k ∈ M.*1 ∧ k ∉ R.
Proof.
  induction M as [|[k v] M IH]; [discriminate|].
  destruct (decide (k ∈ R)) as [Hk|Hk].
  - destruct (decide (boolean_value v)) as [Hv|Hv].
    + rewrite validate_cons_pass by done. intros [k' [Hin Hn]]%IH.
      exists k'. split; [|done]. cbn. by right.
    + by rewrite validate_cons_invalid by done.
  - intros _. exists k. split; [|done]. cbn. by left.
Qed.

Lemma validate_ok_keys M R :
  assert_all_valid_keys M R = Ok → ∀ k, k ∈ M.*1 → k ∈ R.
Proof.
  rewrite validate_ok_Forall, Forall_forall.
  intros Hall k [[k' v] [-> Hin]]%list_elem_of_fmap.
  by destruct (Hall _ Hin).
Qed.

(** X13: once the keys of a mapping have passed the assertion on symbol
    collections, the assertion on mappings raises no ExtraSymbolError for
    that mapping, and it returns normally exactly when every value of the
    mapping is one of the accepted representations. *)
Theorem keys_reconciled_then_validate M R :
  assert_iterable_contains_all_expr_symbols set_iter (M.*1) R = Ok →
  (assert_all_valid_keys M R = Ok
   ↔ ∀ k v, (k, v) ∈ M → boolean_value v)
  ∧ ∀ msg, assert_all_valid_keys M R ≠ Err (ExtraSymbolError msg).
Proof.
  intros [_ HR]%reconcile_ok_NoDup.
  assert (∀ k, k ∈ M.*1 → k ∈ R) as Hkeys.
  { intros k Hk. rewrite <- HR. by apply elem_of_list_to_set. }
  split.
  - rewrite validate_ok_Forall, Forall_forall. split.
    + intros Hall k v Hin. by destruct (Hall _ Hin).
    + intros Hall [k v] Hin. split; [|by eapply Hall].
      apply Hkeys. cbn. by apply (list_elem_of_fmap_2 fst) in Hin.
  - intros msg (k & Hin & Hn)%validate_extra_key. by apply Hn, Hkeys.
Qed.

(** X14: once a mapping with pairwise distinct keys has passed the
    assertion on mappings, the assertion on symbol collections applied to
    its keys raises neither DuplicateSymbolError nor ExtraSymbolError; it
    returns normally exactly when every symbol of the reference set is a
    key, and raises MissingSymbolError otherwise. *)
Theorem validated_then_reconcile_keys M R :
  assert_all_valid_keys M R = Ok →
  NoDup (M.*1) →
  (assert_iterable_contains_all_expr_symbols set_iter (M.*1) R = Ok
   ↔ ∀ s, s ∈ R → s ∈ M.*1)
  ∧ (assert_iterable_contains_all_expr_symbols set_iter (M.*1) R = Ok
     ∨ ∃ msg, assert_iterable_contains_all_expr_symbols set_iter (M.*1) R
              = Err (MissingSymbolError msg)).
Proof.
  intros Hok Hnd. pose proof (validate_ok_keys _ _ Hok) as Hkeys.
  assert ((list_to_set (M.*1) : gset string) ⊆ R) as Hsub.
  { intros s Hs%elem_of_list_to_set. by apply Hkeys. }
  rewrite reconcile_NoDup by done.
  assert (truthy (list_to_set (M.*1) ∖ R) = false) as ->
    by by apply truthy_false, difference_empty.
  destruct (truthy (R ∖ list_to_set (M.*1))) eqn:Hm.
  - split; [|right; by eexists]. split; [discriminate|].
    intros Hall. apply truthy_true in Hm. destruct Hm.
    apply difference_empty. intros s Hs. by apply elem_of_list_to_set, Hall.
  - split; [|by left]. split; [|done]. intros _ s Hs.
    apply truthy_false, difference_empty in Hm.
    apply Hm in Hs. by apply elem_of_list_to_set in Hs.
Qed.

End Combined.

(** ** The store version on arguments of other types *)

Section StoreOutcomes.

Variable set_iter : gset string → list string.

Lemma iterate_contents (σ : Store.store) x o :
  σ !! x = Some o →
  Store.iterate set_iter x σ = (σ, Store.Return (contents set_iter o)).
Proof.
  intros Hx. unfold Store.iterate.
  rewrite (bind_Return _ _ _ _ _ (read_Some _ _ _ Hx)). by destruct o.
Qed.

Lemma py_list_contents (σ : Store.store) x o :
  σ !! x = Some o →
  Store.py_list set_iter x σ
  = ((σ ++ [Store.OList (contents set_iter o)])%list,
     Store.Return (length σ)).
Proof.
  intros Hx. unfold Store.py_list.
  by rewrite (bind_Return _ _ _ _ _ (iterate_contents _ _ _ Hx)).
Qed.

Lemma py_sub_not_set_r (σ : Store.store) a b X o :
  σ !! a = Some (Store.OSet X) → σ !! b = Some o → is_set o = false →
  Store.py_sub a b σ = (σ, Store.Fault).
Proof.
  intros Ha Hb Ho. unfold Store.py_sub.
  rewrite (bind_Return _ _ _ _ _ (read_Some _ _ _ Ha)).
  rewrite (bind_Return _ _ _ _ _ (read_Some _ _ _ Hb)).
  by destruct o.
Qed.

Lemma py_contains_members (σ : Store.store) k x o :
  σ !! x = Some o →
  Store.py_contains k x σ = (σ, Store.Return (bool_decide (k ∈ members o))).
Proof.
  intros Hx. unfold Store.py_contains.
  rewrite (bind_Return _ _ _ _ _ (read_Some _ _ _ Hx)).
  destruct o; cbn; unfold Store.ret; do 2 f_equal;
    apply bool_decide_ext; by rewrite ?elem_of_list_to_set.
Qed.

(** The first four steps of the assertion on symbol collections, up to
    the comparison of the two lengths. *)
Lemma reconcile_steps (σ : Store.store) c r o :
  σ !! c = Some o →
  let C := contents set_iter o in
  let σ2 := ((σ ++ [Store.OList C]) ++ [Store.OSet (list_to_set C)])%list in
  Store.assert_iterable_contains_all_expr_symbols set_iter c r σ
  = if negb (bool_decide (length C = size (list_to_set C : gset string)))
    then (σ2, Store.Raise (DuplicateSymbolError "Received duplicate symbols"))
    else
      Store.bind (Store.py_sub (S (length σ)) r) (λ passed_excess_set,
        Store.bind (Store.py_sub r (S (length σ))) (λ reference_excess_set,
          Store.bind (Store.py_bool reference_excess_set) (λ b1 : bool,
            if b1
            then Store.bind (Store.iterate set_iter reference_excess_set)
                   (λ syms, Store.raise (MissingSymbolError (missing_msg syms)))
            else
              Store.bind (Store.py_bool passed_excess_set) (λ b2 : bool,
                if b2
                then Store.bind (Store.iterate set_iter passed_excess_set)
                       (λ syms, Store.raise
                                  (ExtraSymbolError (extra_msg syms)))
                else Store.ret tt)))) σ2.
Proof.
  intros Hc C σ2. unfold Store.assert_iterable_contains_all_expr_symbols.
  rewrite (bind_Return _ _ _ _ _ (py_list_contents _ _ _ Hc)).
  fold C. set (σ1 := (σ ++ [Store.OList C])%list).
  assert (σ1 !! length σ = Some (Store.OList C)) as Hl by apply lookup_new.
  rewrite (bind_Return _ _ _ _ _ (py_set_OList _ _ _ _ Hl)).
  fold σ2.
  assert (σ2 !! length σ = Some (Store.OList C)) as Hl2
    by by apply lookup_app_l_Some.
  assert (length σ1 = S (length σ)) as Hlen.
  { unfold σ1. rewrite length_app. cbn. lia. }
  assert (σ2 !! length σ1 = Some (Store.OSet (list_to_set C))) as Hs
    by apply lookup_new.
  rewrite (bind_Return _ _ _ _ _ (py_len_OList _ _ _ Hl2)).
  rewrite (bind_Return _ _ _ _ _ (py_len_OSet _ _ _ Hs)).
  rewrite Hlen. by destruct (negb _).
Qed.

Lemma bind_Fault {A B} (m : Store.M A) (f : A → Store.M B) σ σ' :
  m σ = (σ', Store.Fault) → Store.bind m f σ = (σ', Store.Fault).
Proof. intros Hm. unfold Store.bind. by rewrite Hm. Qed.

Lemma of_result_Return (res : result) :
  Store.of_result res = Store.Return tt ↔ res = Ok.
Proof. destruct res; cbn; split; congruence. Qed.

Lemma of_result_Raise (res : result) e :
  Store.of_result res = Store.Raise e ↔ res = Err e.
Proof. destruct res; cbn; split; congruence. Qed.

(** With a set as reference argument the call runs to its end, and ends as
    the function on values does on what the candidate yields. *)
Lemma reconcile_contents_run (σ : Store.store) c r o R :
  σ !! c = Some o → σ !! r = Some (Store.OSet R) →
  ∃ σ',
    Store.assert_iterable_contains_all_expr_symbols set_iter c r σ
    = (σ', Store.of_result
             (assert_iterable_contains_all_expr_symbols set_iter
                (contents set_iter o) R)).
Proof.
  intros Hc Hr. rewrite (reconcile_steps _ _ _ _ Hc). cbv zeta.
  unfold assert_iterable_contains_all_expr_symbols.
  set (C := contents set_iter o).
  set (σ2 := ((σ ++ [Store.OList C]) ++ [Store.OSet (list_to_set C)])%list).
  destruct (negb (bool_decide (length C = size (list_to_set C))));
    [by eexists|].
  assert (σ2 !! S (length σ) = Some (Store.OSet (list_to_set C))) as Hs.
  { replace (S (length σ)) with (length (σ ++ [Store.OList C])%list)
      by (rewrite length_app; cbn; lia).
    apply lookup_new. }
  assert (σ2 !! r = Some (Store.OSet R)) as Hr2
    by by do 2 apply lookup_app_l_Some.
  rewrite (bind_Return _ _ _ _ _ (py_sub_OSet _ _ _ _ _ Hs Hr2)).
  set (σ3 := (σ2 ++ [Store.OSet (list_to_set C ∖ R)])%list).
  assert (σ3 !! S (length σ) = Some (Store.OSet (list_to_set C))) as Hs3
    by by apply lookup_app_l_Some.
  assert (σ3 !! r = Some (Store.OSet R)) as Hr3
    by by apply lookup_app_l_Some.
  rewrite (bind_Return _ _ _ _ _ (py_sub_OSet _ _ _ _ _ Hr3 Hs3)).
  set (σ4 := (σ3 ++ [Store.OSet (R ∖ list_to_set C)])%list).
  assert (σ4 !! length σ3 = Some (Store.OSet (R ∖ list_to_set C))) as Hm
    by apply lookup_new.
  assert (σ4 !! length σ2 = Some (Store.OSet (list_to_set C ∖ R))) as He4
    by (apply lookup_app_l_Some; apply lookup_new).
  rewrite (bind_Return _ _ _ _ _ (py_bool_OSet _ _ _ Hm)).
  destruct (truthy (R ∖ list_to_set C)).
  { rewrite (bind_Return _ _ _ _ _ (iterate_OSet _ _ _ _ Hm)). by eexists. }
  rewrite (bind_Return _ _ _ _ _ (py_bool_OSet _ _ _ He4)).
  destruct (truthy (list_to_set C ∖ R)); [|by eexists].
  rewrite (bind_Return _ _ _ _ _ (iterate_OSet _ _ _ _ He4)). by eexists.
Qed.

(** X15: the candidate may be any of a list, a set and a dict.  Against a
    set as reference, the call ends as the assertion does on the list of
    what iterating over the candidate yields: the entries of the list, the
    elements of the set, the keys of the dict. *)
Theorem store_reconcile_iterable (σ : Store.store) c r o R :
  σ !! c = Some o → σ !! r = Some (Store.OSet R) →
  (Store.assert_iterable_contains_all_expr_symbols set_iter c r σ).2
  = Store.of_result
      (assert_iterable_contains_all_expr_symbols set_iter
         (contents set_iter o) R).
Proof.
  intros Hc Hr. destruct (reconcile_contents_run _ _ _ _ _ Hc Hr) as [σ' ->].
  done.
Qed.

(** X17: when the reference argument is a list or a dict and not a set, a
    candidate that yields a symbol twice still gets DuplicateSymbolError,
    and any other candidate makes the set difference fail with a
    TypeError. *)
Theorem store_reconcile_reference_not_set (σ : Store.store) c r o o' :
  σ !! c = Some o → σ !! r = Some o' → is_set o' = false →
  (Store.assert_iterable_contains_all_expr_symbols set_iter c r σ).2
  = if decide (NoDup (contents set_iter o))
    then Store.Fault
    else Store.Raise (DuplicateSymbolError "Received duplicate symbols").
Proof.
  intros Hc Hr Ho. rewrite (reconcile_steps _ _ _ _ Hc). cbv zeta.
  set (C := contents set_iter o).
  set (σ2 := ((σ ++ [Store.OList C]) ++ [Store.OSet (list_to_set C)])%list).
  destruct (decide (NoDup C)) as [Hnd|Hdup].
  - rewrite bool_decide_eq_true_2 by by apply length_size_NoDup. cbn [negb].
    assert (σ2 !! S (length σ) = Some (Store.OSet (list_to_set C))) as Hs.
    { replace (S (length σ)) with (length (σ ++ [Store.OList C])%list)
        by (rewrite length_app; cbn; lia).
      apply lookup_new. }
    assert (σ2 !! r = Some o') as Hr2 by by do 2 apply lookup_app_l_Some.
    by rewrite (bind_Fault _ _ _ _ (py_sub_not_set_r _ _ _ _ _ Hs Hr2 Ho)).
  - rewrite bool_decide_eq_false_2; [done|]. by rewrite length_size_NoDup.
Qed.

Lemma check_items_members (σ : Store.store) items r o :
  σ !! r = Some o →
  Store.check_items items r σ
  = (σ, Store.of_result (assert_all_valid_keys items (members o))).
Proof.
  intros Hr. induction items as [|[k v] items IH]; [done|].
  cbn [Store.check_items assert_all_valid_keys].
  rewrite (bind_Return _ _ _ _ _ (py_contains_members _ k _ _ Hr)).
  destruct (negb (bool_decide (k ∈ members o))); [done|].
  by destruct (negb (py_in v BOOLEAN_VALUES)).
Qed.

(** X19: the reference argument of the assertion on mappings may be any of
    a set, a list and a dict: only membership is asked of it, and the call
    ends as the assertion does against the set of the list's entries, or of
    the dict's keys. *)
Theorem store_validate_any_container (σ : Store.store) d r D o :
  σ !! d = Some (Store.ODict D) → σ !! r = Some o →
  (Store.assert_all_valid_keys d r σ).2
  = Store.of_result (assert_all_valid_keys D (members o)).
Proof.
  intros Hd Hr. unfold Store.assert_all_valid_keys, Store.py_items.
  rewrite (bind_Return _ (λ items, Store.check_items items r) σ σ D).
  - by rewrite (check_items_members _ _ _ _ Hr).
  - by rewrite (bind_Return _ _ _ _ _ (read_Some _ _ _ Hd)).
Qed.

(** What is known about the iteration order of a set. *)
Hypothesis set_iter_perm : ∀ X, set_iter X ≡ₚ elements X.

(** X16: when the candidate is itself a set, no DuplicateSymbolError is
    raised, and the call returns normally exactly when the candidate is
    equal to the reference set; so it does when both arguments refer to the
    same set. *)
Theorem store_reconcile_set_candidate (σ : Store.store) c r X R :
  σ !! c = Some (Store.OSet X) → σ !! r = Some (Store.OSet R) →
  ((Store.assert_iterable_contains_all_expr_symbols set_iter c r σ).2
   = Store.Return tt ↔ X = R)
  ∧ ∀ msg,
      (Store.assert_iterable_contains_all_expr_symbols set_iter c r σ).2
      ≠ Store.Raise (DuplicateSymbolError msg).
Proof.
  intros Hc Hr. destruct (reconcile_contents_run _ _ _ _ _ Hc Hr) as [σ' ->].
  cbn [snd contents].
  assert (NoDup (set_iter X)) as Hnd
    by (rewrite set_iter_perm; apply NoDup_elements).
  assert ((list_to_set (set_iter X) : gset string) = X) as HX.
  { rewrite set_iter_perm. apply list_to_set_elements_L. }
  split.
  - rewrite of_result_Return, reconcile_ok_NoDup, HX. naive_solver.
  - intros msg. rewrite of_result_Raise, reconcile_NoDup by done.
    by repeat case_match.
Qed.

End StoreOutcomes.

(** ** The further properties at concrete inputs *)

Lemma reconcile_Permutation_witness :
  (∀ X : gset string, elements X ≡ₚ elements X)
  ∧ (∀ X : gset string, reverse (elements X) ≡ₚ elements X)
  ∧ [sA; sB] ≡ₚ [sB; sA]
  ∧ same_up_to_order
      (assert_iterable_contains_all_expr_symbols elements [sA; sB] ∅)
      (assert_iterable_contains_all_expr_symbols
         (λ X, reverse (elements X)) [sB; sA] ∅).
Proof.
  assert (∀ X : gset string, elements X ≡ₚ elements X) as Hperm
    by (intros X; reflexivity).
  assert (∀ X : gset string, reverse (elements X) ≡ₚ elements X) as Hperm'
    by (intros X; apply reverse_Permutation).
  assert ([sA; sB] ≡ₚ [sB; sA]) as Hp by apply perm_swap.
  split; [exact Hperm|]. split; [exact Hperm'|]. split; [exact Hp|].
  exact (reconcile_Permutation elements Hperm (λ X, reverse (elements X))
           Hperm' [sA; sB] [sB; sA] ∅ Hp).
Defined.

Lemma reconcile_missing_message_witness :
  (∀ X : gset string, elements X ≡ₚ elements X)
  ∧ assert_iterable_contains_all_expr_symbols elements [sA; sB] {[sA; sC]}
    = Err (MissingSymbolError
             ("Did not receive value for the following symbols: "
                ++ String dq ("C" ++ String dq EmptyString)))
  ∧ ∃ syms : list string,
      "Did not receive value for the following symbols: "
        ++ String dq ("C" ++ String dq EmptyString)
      = "Did not receive value for the following symbols: "
          ++ String.concat ", "
               ((λ s, String dq (s ++ String dq EmptyString)) <$> syms)
      ∧ syms ≠ []
      ∧ NoDup syms
      ∧ ∀ s, s ∈ syms ↔ s ∈ ({[sA; sC]} : gset string) ∧ s ∉ [sA; sB].
Proof.
  assert (∀ X : gset string, elements X ≡ₚ elements X) as Hperm
    by (intros X; reflexivity).
  assert (assert_iterable_contains_all_expr_symbols elements [sA; sB]
            {[sA; sC]}
          = Err (MissingSymbolError
                   ("Did not receive value for the following symbols: "
                      ++ String dq ("C" ++ String dq EmptyString)))) as Hr
    by (vm_compute; reflexivity).
  split; [exact Hperm|]. split; [exact Hr|].
  exact (reconcile_missing_message elements Hperm [sA; sB] {[sA; sC]} _ Hr).
Defined.

Lemma reconcile_empty_side_witness :
  (∀ X : gset string, elements X ≡ₚ elements X)
  ∧ ({[sA; sB]} : gset string) ≠ ∅
  ∧ NoDup [sA; sB]
  ∧ [sA; sB] ≠ []
  ∧ (∃ syms : list string,
       syms ≡ₚ elements ({[sA; sB]} : gset string)
       ∧ assert_iterable_contains_all_expr_symbols elements [] {[sA; sB]}
         = Err (MissingSymbolError
                  ("Did not receive value for the following symbols: "
                     ++ String.concat ", "
                          ((λ s, String dq (s ++ String dq EmptyString))
                             <$> syms))))
  ∧ (∃ syms : list string,
       syms ≡ₚ [sA; sB]
       ∧ assert_iterable_contains_all_expr_symbols elements [sA; sB] ∅
         = Err (ExtraSymbolError
                  ("Received unexpected symbols: "
                     ++ String.concat ", "
                          ((λ s, String dq (s ++ String dq EmptyString))
                             <$> syms)))).
Proof.
  assert (∀ X : gset string, elements X ≡ₚ elements X) as Hperm
    by (intros X; reflexivity).
  assert (({[sA; sB]} : gset string) ≠ ∅) as HR by by_computation.
  assert (NoDup [sA; sB]) as Hnd by by_computation.
  assert ([sA; sB] ≠ []) as HC by discriminate.
  split; [exact Hperm|]. split; [exact HR|]. split; [exact Hnd|].
  split; [exact HC|].
  destruct (reconcile_empty_side elements Hperm [sA; sB] {[sA; sB]})
    as [Hm He].
  split; [exact (Hm HR)|exact (He Hnd HC)].
Defined.

Lemma validate_error_inv_witness :
  assert_all_valid_keys
    [(sA, VFloat float_one "1.0"); (sB, VStr "x"); (sC, VNone)] {[sA; sB]}
  = Err (InvalidBooleanValueError
           (String dq ("x" ++ String dq (" passed as value for "
              ++ String dq ("B" ++ String dq
                   " is not a valid Boolean value")))))
  ∧ ∃ pre k v post,
      [(sA, VFloat float_one "1.0"); (sB, VStr "x"); (sC, VNone)]
      = (pre ++ (k, v) :: post)%list
      ∧ Forall (passes {[sA; sB]}) pre
      ∧ (((k ∉ ({[sA; sB]} : gset string))
          ∧ InvalidBooleanValueError
              (String dq ("x" ++ String dq (" passed as value for "
                 ++ String dq ("B" ++ String dq
                      " is not a valid Boolean value"))))
            = ExtraSymbolError
                (String dq (k ++ String dq
                   " is not a symbol in this expression")))
         ∨ (k ∈ ({[sA; sB]} : gset string) ∧ (¬ boolean_value v)
            ∧ ∃ text,
                value_text v text
                ∧ InvalidBooleanValueError
                    (String dq ("x" ++ String dq (" passed as value for "
                       ++ String dq ("B" ++ String dq
                            " is not a valid Boolean value"))))
                  = InvalidBooleanValueError
                      (String dq (text ++ String dq (" passed as value for "
                         ++ String dq (k ++ String dq
                              " is not a valid Boolean value")))))).
Proof.
  assert (assert_all_valid_keys
            [(sA, VFloat float_one "1.0"); (sB, VStr "x"); (sC, VNone)]
            {[sA; sB]}
          = Err (InvalidBooleanValueError
                   (String dq ("x" ++ String dq (" passed as value for "
                      ++ String dq ("B" ++ String dq
                           " is not a valid Boolean value"))))))
    as Hr by (vm_compute; reflexivity).
  split; [exact Hr|].
  exact (validate_error_inv _ _ _ Hr).
Defined.

Lemma validate_ok_Permutation_witness :
  [(sA, VInt 1); (sB, VBool false)] ≡ₚ [(sB, VBool false); (sA, VInt 1)]
  ∧ (assert_all_valid_keys [(sA, VInt 1); (sB, VBool false)] {[sA; sB]} = Ok
     ↔ assert_all_valid_keys [(sB, VBool false); (sA, VInt 1)] {[sA; sB]}
       = Ok).
Proof.
  assert ([(sA, VInt 1); (sB, VBool false)]
          ≡ₚ [(sB, VBool false); (sA, VInt 1)]) as Hp by apply perm_swap.
  split; [exact Hp|].
  exact (validate_ok_Permutation _ _ {[sA; sB]} Hp).
Defined.

Lemma validate_ok_mono_witness :
  [(sB, VBool false)] ⊆ [(sA, VInt 1); (sB, VBool false)]
  ∧ ({[sA; sB]} : gset string) ⊆ {[sA; sB; sC]}
  ∧ assert_all_valid_keys [(sA, VInt 1); (sB, VBool false)] {[sA; sB]} = Ok
  ∧ assert_all_valid_keys [(sB, VBool false)] {[sA; sB; sC]} = Ok.
Proof.
  assert ([(sB, VBool false)] ⊆ [(sA, VInt 1); (sB, VBool false)]) as HM
    by by_computation.
  assert (({[sA; sB]} : gset string) ⊆ {[sA; sB; sC]}) as HR
    by by_computation.
  assert (assert_all_valid_keys [(sA, VInt 1); (sB, VBool false)] {[sA; sB]}
          = Ok) as Hok by (vm_compute; reflexivity).
  split; [exact HM|]. split; [exact HR|]. split; [exact Hok|].
  exact (validate_ok_mono _ _ _ _ HM HR Hok).
Defined.

Lemma keys_reconciled_then_validate_witness :
  assert_iterable_contains_all_expr_symbols elements
    ([(sA, VInt 1); (sB, VStr "x")].*1) {[sA; sB]} = Ok
  ∧ (assert_all_valid_keys [(sA, VInt 1); (sB, VStr "x")] {[sA; sB]} = Ok
     ↔ ∀ k v, (k, v) ∈ [(sA, VInt 1); (sB, VStr "x")] → boolean_value v)
  ∧ ∀ msg,
      assert_all_valid_keys [(sA, VInt 1); (sB, VStr "x")] {[sA; sB]}
      ≠ Err (ExtraSymbolError msg).
Proof.
  assert (assert_iterable_contains_all_expr_symbols elements
            ([(sA, VInt 1); (sB, VStr "x")].*1) {[sA; sB]} = Ok) as Hok
    by (vm_compute; reflexivity).
  split; [exact Hok|].
  exact (keys_reconciled_then_validate elements _ _ Hok).
Defined.

Lemma validated_then_reconcile_keys_witness :
  assert_all_valid_keys [(sA, VInt 1)] {[sA; sB]} = Ok
  ∧ NoDup ([(sA, VInt 1)].*1)
  ∧ (assert_iterable_contains_all_expr_symbols elements
       ([(sA, VInt 1)].*1) {[sA; sB]} = Ok
     ↔ ∀ s, s ∈ ({[sA; sB]} : gset string) → s ∈ [(sA, VInt 1)].*1)
  ∧ (assert_iterable_contains_all_expr_symbols elements
       ([(sA, VInt 1)].*1) {[sA; sB]} = Ok
     ∨ ∃ msg,
         assert_iterable_contains_all_expr_symbols elements
           ([(sA, VInt 1)].*1) {[sA; sB]}
         = Err (MissingSymbolError msg)).
Proof.
  assert (assert_all_valid_keys [(sA, VInt 1)] {[sA; sB]} = Ok) as Hok
    by (vm_compute; reflexivity).
  assert (NoDup ([(sA, VInt 1)].*1)) as Hnd by by_computation.
  split; [exact Hok|]. split; [exact Hnd|].
  exact (validated_then_reconcile_keys elements _ _ Hok Hnd).
Defined.

Lemma store_reconcile_iterable_witness :
  dict_store !! 0 = Some (Store.ODict [(sA, VInt 1); (sB, VStr "x")])
  ∧ dict_store !! 1 = Some (Store.OSet {[sA; sB]})
  ∧ (Store.assert_iterable_contains_all_expr_symbols elements 0 1
       dict_store).2
    = Store.of_result
        (assert_iterable_contains_all_expr_symbols elements [sA; sB]
           {[sA; sB]}).
Proof.
  split; [reflexivity|]. split; [reflexivity|].
  exact (store_reconcile_iterable elements dict_store 0 1 _ _
           eq_refl eq_refl).
Defined.

Lemma store_reconcile_set_candidate_witness :
  (∀ X : gset string, elements X ≡ₚ elements X)
  ∧ dict_store !! 1 = Some (Store.OSet {[sA; sB]})
  ∧ ((Store.assert_iterable_contains_all_expr_symbols elements 1 1
        dict_store).2 = Store.Return tt
     ↔ ({[sA; sB]} : gset string) = {[sA; sB]})
  ∧ ∀ msg,
      (Store.assert_iterable_contains_all_expr_symbols elements 1 1
         dict_store).2
      ≠ Store.Raise (DuplicateSymbolError msg).
Proof.
  assert (∀ X : gset string, elements X ≡ₚ elements X) as Hperm
    by (intros X; reflexivity).
  split; [exact Hperm|]. split; [reflexivity|].
  exact (store_reconcile_set_candidate elements Hperm dict_store 1 1 _ _
           eq_refl eq_refl).
Defined.

Lemma store_reconcile_reference_not_set_witness :
  dict_store !! 2 = Some (Store.OList [sA; sA])
  ∧ dict_store !! 0 = Some (Store.ODict [(sA, VInt 1); (sB, VStr "x")])
  ∧ is_set (Store.ODict [(sA, VInt 1); (sB, VStr "x")]) = false
  ∧ (Store.assert_iterable_contains_all_expr_symbols elements 2 0
       dict_store).2
    = if decide (NoDup [sA; sA])
      then Store.Fault
      else Store.Raise (DuplicateSymbolError "Received duplicate symbols").
Proof.
  split; [reflexivity|]. split; [reflexivity|]. split; [reflexivity|].
  exact (store_reconcile_reference_not_set elements dict_store 2 0 _ _
           eq_refl eq_refl eq_refl).
Defined.

Lemma store_validate_any_container_witness :
  dict_store !! 0 = Some (Store.ODict [(sA, VInt 1); (sB, VStr "x")])
  ∧ dict_store !! 2 = Some (Store.OList [sA; sA])
  ∧ (Store.assert_all_valid_keys 0 2 dict_store).2
    = Store.of_result
        (assert_all_valid_keys [(sA, VInt 1); (sB, VStr "x")]
           (list_to_set [sA; sA])).
Proof.
  split; [reflexivity|]. split; [reflexivity|].
  exact (store_validate_any_container dict_store 0 2 _ _ eq_refl eq_refl).
Defined.
